(** * MCP test servers: the dispatch core of the two example servers

    A shallow embedding of
    - [examples/test-servers/python-server.py] (line-delimited stdio server,
      class [MCPTestServer]) and
    - [examples/test-servers/websocket_mcp_server.py] (text-frame server,
      class [WebSocketMCPServer]),
    followed by the properties of the wire contract that hold, or fail, on
    the code.

    Python values that travel through the servers are exactly the values
    [json.loads] can build, so one inductive type of JSON values carries
    requests, parameters and responses.  Exceptions are an explicit error
    monad; the read loops are folds over the units delivered by the
    transport. *)

From Stdlib Require Import ZArith String Ascii List Bool DecimalString.
From Stdlib Require Import Floats.SpecFloat.
Import ListNotations.
Local Open Scope string_scope.
Local Open Scope Z_scope.
Set Warnings "-register-all".

(** ** Python values and built-ins *)

Module Py.

(** What [json.loads] returns: [None], [bool], [int] (unbounded), [float]
    (binary64, NaN payloads collapsed), [str], [list] and [dict] with string
    keys in insertion order. *)
Inductive json : Type :=
| JNone
| JBool (b : bool)
| JInt (n : Z)
| JFloat (x : spec_float)
| JStr (s : string)
| JList (items : list json)
| JDict (entries : list (string * json)).

Definition dict : Type := list (string * json).

(** The exceptions the two servers can meet.  The payload is the text of
    [str(e)], except for [KeyError] which keeps the missing key. *)
Inductive exn : Type :=
| AttributeError (msg : string)
| KeyError (key : string)
| TypeError (msg : string)
| OverflowError (msg : string)
| ValueError (msg : string)
| JSONDecodeError (msg : string)
| OtherException (cls msg : string).

(** A computation either returns or raises. *)
Inductive result (A : Type) : Type :=
| Return (a : A)
| Raise (e : exn).
Arguments Return {A} a.
Arguments Raise {A} e.

Definition bind {A B : Type} (m : result A) (k : A -> result B) : result B :=
  match m with
  | Return a => k a
  | Raise e => Raise e
  end.

(** [try: body / except Exception as e: handler e]. *)
Definition try_except {A : Type} (body : result A) (handler : exn -> result A)
  : result A :=
  match body with
  | Return a => Return a
  | Raise e => handler e
  end.

Declare Scope py_scope.
Delimit Scope py_scope with py.
Notation "x <- m ;; k" := (bind m (fun x => k))
  (at level 61, m at next level, right associativity) : py_scope.

(** What the interpreter and the standard library decide: the JSON parser,
    [repr] of a float, [repr] of a string, and
    [sys.get_int_max_str_digits()], the longest int that [str] accepts to
    write (4300 digits by default, 0 for no limit). *)
Class Host : Type := {
  loads : string -> result json;
  float_repr : spec_float -> string;
  str_repr : string -> string;
  int_max_str_digits : nat
}.

Definition quote : string := String "039"%char EmptyString.
Definition dquote : string := String "034"%char EmptyString.

(** [str(n)] for an [int]. *)
Definition str_int (n : Z) : string := NilZero.string_of_int (Z.to_int n).

Fixpoint join (sep : string) (parts : list string) : string :=
  match parts with
  | [] => EmptyString
  | [p] => p
  | p :: rest => p ++ sep ++ join sep rest
  end.

Section Rendering.
Context `{Host}.

(** [repr(v)]. *)
Fixpoint py_repr (v : json) : string :=
  match v with
  | JNone => "None"
  | JBool true => "True"
  | JBool false => "False"
  | JInt n => str_int n
  | JFloat x => float_repr x
  | JStr s => str_repr s
  | JList items => "[" ++ join ", " (map py_repr items) ++ "]"
  | JDict entries =>
      "{" ++ join ", "
               (map (fun kv => str_repr (fst kv) ++ ": " ++ py_repr (snd kv))
                    entries)
          ++ "}"
  end.

(** [str(v)], which is what an f-string field [{v}] inserts. *)
Definition py_str (v : json) : string :=
  match v with
  | JStr s => s
  | _ => py_repr v
  end.

(** [str(e)] for a caught exception. *)
Definition str_exn (e : exn) : string :=
  match e with
  | AttributeError msg => msg
  | KeyError key => str_repr key
  | TypeError msg => msg
  | OverflowError msg => msg
  | ValueError msg => msg
  | JSONDecodeError msg => msg
  | OtherException _ msg => msg
  end.

(** An int of [json.loads] is within the limit, which [int] applies when it
    reads the digits; a sum the program computes can be longer, and then
    [str] raises. *)
Definition digit_count (n : Z) : nat := String.length (str_int (Z.abs n)).

Definition within_limit (n : Z) : bool :=
  match int_max_str_digits with
  | O => true
  | limit => Nat.leb (digit_count n) limit
  end.

Definition exceeds_limit : exn :=
  ValueError
    ("Exceeds the limit (" ++ str_int (Z.of_nat int_max_str_digits)
       ++ " digits) for integer string conversion; "
       ++ "use sys.set_int_max_str_digits() to increase the limit").

(** [str(v)] for a value the program computed. *)
Definition str_computed (v : json) : result string :=
  match v with
  | JInt n => if within_limit n then Return (str_int n) else Raise exceeds_limit
  | _ => Return (py_str v)
  end.
End Rendering.

(** [type(v).__name__]. *)
Definition type_name (v : json) : string :=
  match v with
  | JNone => "NoneType"
  | JBool _ => "bool"
  | JInt _ => "int"
  | JFloat _ => "float"
  | JStr _ => "str"
  | JList _ => "list"
  | JDict _ => "dict"
  end.

(** [isinstance(v, dict)]. *)
Definition is_dict (v : json) : bool :=
  match v with
  | JDict _ => true
  | _ => false
  end.

(** Truth value of [v], as [if v:] and [not v] test it. *)
Definition truthy (v : json) : bool :=
  match v with
  | JNone => false
  | JBool b => b
  | JInt n => negb (n =? 0)
  | JFloat (S754_zero _) => false
  | JFloat _ => true
  | JStr s => negb (String.eqb s EmptyString)
  | JList items => match items with [] => false | _ => true end
  | JDict entries => match entries with [] => false | _ => true end
  end.

(** [v == s] for a string literal [s]. *)
Definition eq_str (v : json) (s : string) : bool :=
  match v with
  | JStr t => String.eqb t s
  | _ => false
  end.

Fixpoint lookup (key : string) (d : dict) : option json :=
  match d with
  | [] => None
  | (k, v) :: rest => if String.eqb k key then Some v else lookup key rest
  end.

(** [d.get(key, default)] on a dict. *)
Definition dict_get (d : dict) (key : string) (default : json) : json :=
  match lookup key d with
  | Some v => v
  | None => default
  end.

(** [d[key]] on a dict. *)
Definition getitem (d : dict) (key : string) : result json :=
  match lookup key d with
  | Some v => Return v
  | None => Raise (KeyError key)
  end.

Definition no_attribute (v : json) (attr : string) : exn :=
  AttributeError
    (quote ++ type_name v ++ quote ++ " object has no attribute "
       ++ quote ++ attr ++ quote).

(** [v.get(key, default)] on any value: only a dict has the method. *)
Definition py_get (v : json) (key : string) (default : json) : result json :=
  match v with
  | JDict d => Return (dict_get d key default)
  | _ => Raise (no_attribute v "get")
  end.

(** binary64 arithmetic. *)
Definition float_add (x y : spec_float) : spec_float := SFadd 53 1024 x y.

(** [float(n)] for an [int]: round to nearest even, [OverflowError] when
    the rounded value is not finite. *)
Definition float_of_int (n : Z) : result spec_float :=
  match binary_normalize 53 1024 n 0 false with
  | S754_infinity _ => Raise (OverflowError "int too large to convert to float")
  | x => Return x
  end.

Definition unsupported_add (a b : json) : exn :=
  TypeError ("unsupported operand type(s) for +: " ++ quote ++ type_name a
               ++ quote ++ " and " ++ quote ++ type_name b ++ quote).

Definition cannot_concatenate (a b : json) : exn :=
  TypeError ("can only concatenate " ++ type_name a ++ " (not " ++ dquote
               ++ type_name b ++ dquote ++ ") to " ++ type_name a).

(** A [bool] is an [int] in arithmetic. *)
Definition as_int (v : json) : option Z :=
  match v with
  | JInt n => Some n
  | JBool true => Some 1
  | JBool false => Some 0
  | _ => None
  end.

(** A JSON number: an [int] or a [float]. *)
Definition is_number (v : json) : bool :=
  match v with
  | JInt _ | JFloat _ => true
  | _ => false
  end.

(** [a + b]. *)
Definition py_add (a b : json) : result json :=
  match a, b with
  | JStr s, JStr t => Return (JStr (s ++ t))
  | JStr _, _ => Raise (cannot_concatenate a b)
  | JList l, JList m => Return (JList (l ++ m))
  | JList _, _ => Raise (cannot_concatenate a b)
  | JFloat x, JFloat y => Return (JFloat (float_add x y))
  | JFloat x, _ =>
      match as_int b with
      | Some n => bind (float_of_int n) (fun y => Return (JFloat (float_add x y)))
      | None => Raise (unsupported_add a b)
      end
  | _, JFloat y =>
      match as_int a with
      | Some n => bind (float_of_int n) (fun x => Return (JFloat (float_add x y)))
      | None => Raise (unsupported_add a b)
      end
  | _, _ =>
      match as_int a, as_int b with
      | Some n, Some m => Return (JInt (n + m))
      | _, _ => Raise (unsupported_add a b)
      end
  end.

End Py.

(** ** The wall clock *)

Module Clock.
Import Py.

(** A reading of [datetime.now()]: a naive local time. *)
Record datetime : Type := {
  year : Z; month : Z; day : Z;
  hour : Z; minute : Z; second : Z; microsecond : Z
}.

Fixpoint zeros (n : nat) : string :=
  match n with
  | O => EmptyString
  | S k => String "0"%char (zeros k)
  end.

(** A number written in at least [width] digits. *)
Definition zfill (width : nat) (n : Z) : string :=
  let s := str_int n in
  zeros (width - String.length s) ++ s.

Definition date_text (t : datetime) : string :=
  zfill 4 (year t) ++ "-" ++ zfill 2 (month t) ++ "-" ++ zfill 2 (day t).

Definition time_text (t : datetime) : string :=
  zfill 2 (hour t) ++ ":" ++ zfill 2 (minute t) ++ ":" ++ zfill 2 (second t).

(** [t.isoformat()]: the fraction is printed only when it is not zero. *)
Definition isoformat (t : datetime) : string :=
  date_text t ++ "T" ++ time_text t
    ++ (if microsecond t =? 0 then EmptyString
        else "." ++ zfill 6 (microsecond t)).

(** [t.strftime('%Y-%m-%d %H:%M:%S')]. *)
Definition strftime (t : datetime) : string :=
  date_text t ++ " " ++ time_text t.

End Clock.

(** ** Line transport: what [sys.stdin.readline] and [str.strip] do *)

Module Wire.
Import Py.

(** A Python [str] is carried as the UTF-8 encoding of its code points, one
    byte per [ascii].  [str.strip] removes from both ends the characters of
    [str.isspace]: U+0009 to U+000D, U+001C to U+001F and U+0020, one byte
    each; U+0085 and U+00A0, two bytes; U+1680, U+2000 to U+200A, U+2028,
    U+2029, U+202F, U+205F and U+3000, three bytes. *)
Definition byte (c : ascii) : Z := Z.of_nat (nat_of_ascii c).

Definition is_space (c : ascii) : bool :=
  ((9 <=? byte c) && (byte c <=? 13)) || ((28 <=? byte c) && (byte c <=? 32)).

(** [C2 85] and [C2 A0]. *)
Definition is_space2 (c1 c2 : ascii) : bool :=
  (byte c1 =? 194) && ((byte c2 =? 133) || (byte c2 =? 160)).

(** [E1 9A 80]; [E2 80 80] to [E2 80 8A], [E2 80 A8], [E2 80 A9],
    [E2 80 AF]; [E2 81 9F]; [E3 80 80]. *)
Definition is_space3 (c1 c2 c3 : ascii) : bool :=
  ((byte c1 =? 225) && (byte c2 =? 154) && (byte c3 =? 128))
  || ((byte c1 =? 226) && (byte c2 =? 128)
      && (((128 <=? byte c3) && (byte c3 <=? 138))
          || (byte c3 =? 168) || (byte c3 =? 169) || (byte c3 =? 175)))
  || ((byte c1 =? 226) && (byte c2 =? 129) && (byte c3 =? 159))
  || ((byte c1 =? 227) && (byte c2 =? 128) && (byte c3 =? 128)).

(** Drops the whitespace characters at the front, the encodings being
    recognised by [one], [two] and [three]. *)
Fixpoint drop_spaces (one : ascii -> bool) (two : ascii -> ascii -> bool)
         (three : ascii -> ascii -> ascii -> bool) (s : string) : string :=
  match s with
  | EmptyString => EmptyString
  | String c1 r1 =>
      if one c1 then drop_spaces one two three r1
      else
        match r1 with
        | EmptyString => s
        | String c2 r2 =>
            if two c1 c2 then drop_spaces one two three r2
            else
              match r2 with
              | EmptyString => s
              | String c3 r3 =>
                  if three c1 c2 c3 then drop_spaces one two three r3 else s
              end
        end
  end.

Fixpoint reverse_onto (s acc : string) : string :=
  match s with
  | EmptyString => acc
  | String c rest => reverse_onto rest (String c acc)
  end.

Definition reverse (s : string) : string := reverse_onto s EmptyString.

Definition lstrip (s : string) : string :=
  drop_spaces is_space is_space2 is_space3 s.

(** The same from the end: on the reversed text the bytes of a character
    come last byte first. *)
Definition rstrip (s : string) : string :=
  reverse
    (drop_spaces is_space (fun c2 c1 => is_space2 c1 c2)
       (fun c3 c2 c1 => is_space3 c1 c2 c3) (reverse s)).

Definition strip (s : string) : string := rstrip (lstrip s).

Definition is_empty (s : string) : bool :=
  match s with
  | EmptyString => true
  | _ => false
  end.

End Wire.

(** ** python-server.py *)

Module PythonServer.
Import Py Clock Wire.
Local Open Scope py_scope.

(** The attributes [__init__] sets on the server object. *)
Record MCPTestServer : Type := {
  server_info : json;
  capabilities : json;
  tools : json
}.

Definition string_property (description : string) : json :=
  JDict [("type", JStr "string"); ("description", JStr description)].

Definition number_property (description : string) : json :=
  JDict [("type", JStr "number"); ("description", JStr description)].

(** [MCPTestServer()]. *)
Definition __init__ : MCPTestServer := {|
  server_info :=
    JDict [("name", JStr "python-test-server"); ("version", JStr "1.0.0")];
  capabilities :=
    JDict [("tools", JDict [("listChanged", JBool true)])];
  tools :=
    JList [
      JDict [("name", JStr "echo");
             ("description", JStr "Echo back the input text");
             ("inputSchema",
              JDict [("type", JStr "object");
                     ("properties",
                      JDict [("text", string_property "Text to echo back")]);
                     ("required", JList [JStr "text"])])];
      JDict [("name", JStr "add");
             ("description", JStr "Add two numbers together");
             ("inputSchema",
              JDict [("type", JStr "object");
                     ("properties",
                      JDict [("a", number_property "First number");
                             ("b", number_property "Second number")]);
                     ("required", JList [JStr "a"; JStr "b"])])];
      JDict [("name", JStr "get_time");
             ("description", JStr "Get the current time");
             ("inputSchema",
              JDict [("type", JStr "object");
                     ("properties", JDict []);
                     ("additionalProperties", JBool false)])]
    ]
|}.

(** The two shapes of a reply. *)
Definition result_response (id payload : json) : json :=
  JDict [("jsonrpc", JStr "2.0"); ("id", id); ("result", payload)].

Definition error_response (id : json) (code : Z) (message : string) : json :=
  JDict [("jsonrpc", JStr "2.0"); ("id", id);
         ("error", JDict [("code", JInt code); ("message", JStr message)])].

Definition text_content (text : string) : json :=
  JList [JDict [("type", JStr "text"); ("text", JStr text)]].

Section Handlers.
Context `{Host}.
Variable self : MCPTestServer.

Definition handle_initialize (request : dict) : result json :=
  id <- getitem request "id" ;;
  Return (result_response id
            (JDict [("protocolVersion", JStr "2025-03-26");
                    ("capabilities", capabilities self);
                    ("serverInfo", server_info self)])).

Definition handle_list_tools (request : dict) : result json :=
  id <- getitem request "id" ;;
  Return (result_response id (JDict [("tools", tools self)])).

(** The [try] block: a tool branch builds [content] and reaches the common
    [return]; the last branch returns the error.  Both returns read
    [request["id"]] inside the block. *)
Definition call_tool_body (now : datetime) (request : dict)
           (tool_name arguments : json) : result json :=
  if eq_str tool_name "echo" then
    text <- py_get arguments "text" (JStr EmptyString) ;;
    id <- getitem request "id" ;;
    Return (result_response id
              (JDict [("content", text_content ("Echo: " ++ py_str text))]))
  else if eq_str tool_name "add" then
    a <- py_get arguments "a" (JInt 0) ;;
    b <- py_get arguments "b" (JInt 0) ;;
    sum <- py_add a b ;;
    text <- str_computed sum ;;
    id <- getitem request "id" ;;
    Return (result_response id
              (JDict [("content", text_content ("Result: " ++ text))]))
  else if eq_str tool_name "get_time" then
    id <- getitem request "id" ;;
    Return (result_response id
              (JDict [("content",
                       text_content ("Current time: " ++ isoformat now))]))
  else
    id <- getitem request "id" ;;
    Return (error_response id (-32601) ("Unknown tool: " ++ py_str tool_name)).

Definition handle_call_tool (now : datetime) (request : dict) : result json :=
  let params := dict_get request "params" (JDict []) in
  tool_name <- py_get params "name" JNone ;;
  arguments <- py_get params "arguments" (JDict []) ;;
  try_except
    (call_tool_body now request tool_name arguments)
    (fun e =>
       id <- getitem request "id" ;;
       Return (error_response id (-32603)
                 ("Tool execution error: " ++ str_exn e))).

(** [request] is whatever [json.loads] produced; [request.get] needs a
    dict. *)
Definition handle_request (now : datetime) (request : json) : result json :=
  match request with
  | JDict d =>
      let method := dict_get d "method" JNone in
      if eq_str method "initialize" then handle_initialize d
      else if eq_str method "tools/list" then handle_list_tools d
      else if eq_str method "tools/call" then handle_call_tool now d
      else
        Return (error_response (dict_get d "id" JNone) (-32601)
                  ("Method not found: " ++ py_str method))
  | _ => Raise (no_attribute request "get")
  end.
End Handlers.

(** One result of [readline], with the clock reading at the moment the line
    is handled. *)
Record arrival : Type := { line : string; clock : datetime }.

(** What the process writes: a value handed to [json.dumps] and printed as
    one flushed line on standard output, or a diagnostic on standard error. *)
Inductive event : Type :=
| Stdout (v : json)
| Stderr (s : string).

(** The state of the [while True] loop of [run_stdio]. *)
Record session : Type := {
  server : MCPTestServer;
  running : bool;
  written : list event
}.

Definition emit (s : session) (e : event) : session :=
  {| server := server s; running := running s; written := written s ++ [e] |}.

Definition stop (s : session) : session :=
  {| server := server s; running := false; written := written s |}.

Section Loop.
Context `{Host}.

(** One iteration of the loop body on the next [readline] result. *)
Definition iteration (s : session) (a : arrival) : session :=
  if is_empty (line a) then stop s
  else
    let text := strip (line a) in
    if is_empty text then s
    else
      match loads text with
      | Raise (JSONDecodeError msg) =>
          emit s (Stdout (error_response JNone (-32700)
                            ("Parse error: " ++ msg)))
      | Raise e => stop (emit s (Stderr ("Server error: " ++ str_exn e)))
      | Return request =>
          match handle_request (server s) (clock a) request with
          | Return response => emit s (Stdout response)
          | Raise e => stop (emit s (Stderr ("Server error: " ++ str_exn e)))
          end
      end.

Definition step (s : session) (a : arrival) : session :=
  if running s then iteration s a else s.

(** [run_stdio]: the banner, the loop until end of input or a break, the
    closing line. *)
Definition run_stdio (self : MCPTestServer) (stdin : list arrival) : session :=
  let start :=
    {| server := self; running := true;
       written := [Stderr "Python MCP Test Server starting (stdio mode)"] |} in
  stop (emit (fold_left step stdin start)
             (Stderr "Python MCP Test Server stopped")).
End Loop.

End PythonServer.

(** ** websocket_mcp_server.py *)

Module WebSocketServer.
Import Py Clock.
Local Open Scope py_scope.

Record WebSocketMCPServer : Type := { capabilities : json }.

(** [WebSocketMCPServer()]. *)
Definition __init__ : WebSocketMCPServer :=
  {| capabilities := JDict [("tools", JDict [])] |}.

Definition result_response (id payload : json) : json :=
  JDict [("jsonrpc", JStr "2.0"); ("id", id); ("result", payload)].

Definition error_response (id : json) (code : Z) (message : string) : json :=
  JDict [("jsonrpc", JStr "2.0"); ("id", id);
         ("error", JDict [("code", JInt code); ("message", JStr message)])].

(** The list literal of the [tools/list] branch. *)
Definition tool_catalog : json :=
  JList [
    JDict [("name", JStr "websocket_search");
           ("description",
            JStr "Search for information via WebSocket MCP server");
           ("inputSchema",
            JDict [("type", JStr "object");
                   ("properties",
                    JDict [("query",
                            JDict [("type", JStr "string");
                                   ("description", JStr "The search query")])]);
                   ("required", JList [JStr "query"]);
                   ("additionalProperties", JBool false)])];
    JDict [("name", JStr "websocket_time");
           ("description", JStr "Get current time from WebSocket server");
           ("inputSchema",
            JDict [("type", JStr "object");
                   ("properties", JDict []);
                   ("additionalProperties", JBool false)])]
  ].

(** [f"{type(v)}"]. *)
Definition str_type (v : json) : string :=
  "<class " ++ quote ++ type_name v ++ quote ++ ">".

Definition search_text (query : string) : string :=
  "🔍 WEBSOCKET MCP SEARCH for " ++ quote ++ query ++ quote
    ++ ": Found comprehensive results via WebSocket connection. "
    ++ "Server located relevant information about " ++ query
    ++ " from distributed sources. [Response from WebSocket MCP Server]".

Definition time_text (now : datetime) : string :=
  "⏰ WEBSOCKET MCP TIME: " ++ strftime now
    ++ " [Timestamp from WebSocket MCP Server]".

Section Handlers.
Context `{Host}.
Variable self : WebSocketMCPServer.

(** The [tools/call] branch. *)
Definition call_tool (now : datetime) (params req_id : json) : result json :=
  tool_name <- py_get params "name" JNone ;;
  arguments <- py_get params "arguments" (JDict []) ;;
  if negb (is_dict arguments) then
    Return (error_response req_id (-32602)
              ("Invalid parameters: arguments must be a JSON object, got "
                 ++ str_type arguments))
  else if eq_str tool_name "websocket_search" then
    query <- py_get arguments "query" (JStr EmptyString) ;;
    if negb (truthy query) then
      Return (error_response req_id (-32602)
                ("Invalid parameters: " ++ quote ++ "query" ++ quote
                   ++ " is required for websocket_search"))
    else
      Return (result_response req_id
                (JDict [("content",
                         JList [JDict [("type", JStr "text");
                                       ("text",
                                        JStr (search_text (py_str query)))]])]))
  else if eq_str tool_name "websocket_time" then
    Return (result_response req_id
              (JDict [("content",
                       JList [JDict [("type", JStr "text");
                                     ("text", JStr (time_text now))]])]))
  else
    Return (error_response req_id (-32601)
              ("Method not found: Unknown tool " ++ quote
                 ++ py_str tool_name ++ quote)).

(** [handle_request]; [JNone] is the [None] of the notification branch. *)
Definition handle_request (now : datetime) (request : json) : result json :=
  match request with
  | JDict d =>
      let method := dict_get d "method" JNone in
      let params := dict_get d "params" (JDict []) in
      let req_id := dict_get d "id" JNone in
      if eq_str method "initialize" then
        Return (result_response req_id
                  (JDict [("protocolVersion", JStr "2024-11-05");
                          ("capabilities", capabilities self);
                          ("serverInfo",
                           JDict [("name", JStr "websocket-demo-mcp-server");
                                  ("version", JStr "1.0.0")])]))
      else if eq_str method "tools/list" then
        Return (result_response req_id (JDict [("tools", tool_catalog)]))
      else if eq_str method "tools/call" then call_tool now params req_id
      else if eq_str method "notifications/initialized" then Return JNone
      else Return (result_response req_id (JDict []))
  | _ => Raise (no_attribute request "get")
  end.
End Handlers.

(** What the connection delivers: a text frame or a binary one. *)
Inductive message : Type :=
| TextFrame (s : string)
| BinaryFrame (payload : list Byte.byte).

Record arrival : Type := { frame : message; clock : datetime }.

(** The state of the [async for] loop of [handle_client]: the server object
    and the values handed to [json.dumps] and sent, oldest first. *)
Record session : Type := {
  server : WebSocketMCPServer;
  sent : list json
}.

Definition send (s : session) (v : json) : session :=
  {| server := server s; sent := sent s ++ [v] |}.

Section Loop.
Context `{Host}.

(** The body of the loop on one frame, with its two [except] clauses. *)
Definition step (s : session) (a : arrival) : session :=
  match frame a with
  | BinaryFrame _ => s
  | TextFrame text =>
      match (request <- loads text ;;
             handle_request (server s) (clock a) request) with
      | Return response => if truthy response then send s response else s
      | Raise (JSONDecodeError _) =>
          send s (error_response JNone (-32700) "Parse error")
      | Raise e =>
          send s (error_response JNone (-32603)
                    ("Internal error: " ++ str_exn e))
      end
  end.

Definition handle_client (self : WebSocketMCPServer) (frames : list arrival)
  : session :=
  fold_left step frames {| server := self; sent := [] |}.
End Loop.

End WebSocketServer.

(** ** The servers as objects: methods that can change [self] *)

Module Methods.
Import Py Clock Wire.

(** The body of a method, run on the object it is called on.  It returns
    or raises, and it leaves the object behind, changed or not: an
    assignment to an attribute or a call that mutates one in place shows as
    a different object in the second component. *)
Definition method (Self A : Type) : Type := Self -> result A * Self.

Definition ret {Self A : Type} (a : A) : method Self A :=
  fun self => (Return a, self).

(** [self.attribute], read. *)
Definition attribute {Self A : Type} (read : Self -> A) : method Self A :=
  fun self => (Return (read self), self).

(** Code in which the name [self] does not occur. *)
Definition without_self {Self A : Type} (m : result A) : method Self A :=
  fun self => (m, self).

Definition then_ {Self A B : Type} (m : method Self A) (k : A -> method Self B)
  : method Self B :=
  fun self =>
    match m self with
    | (Return a, self') => k a self'
    | (Raise e, self') => (Raise e, self')
    end.

Declare Scope method_scope.
Delimit Scope method_scope with method.
Notation "x <- m ;; k" := (then_ m (fun x => k))
  (at level 61, m at next level, right associativity) : method_scope.
Local Open Scope method_scope.

(** *** python-server.py *)

Module Stdio.
Import PythonServer.

Section Handlers.
Context `{Host}.

Definition handle_initialize (request : dict) : method MCPTestServer json :=
  id <- without_self (getitem request "id") ;;
  its_capabilities <- attribute capabilities ;;
  its_server_info <- attribute server_info ;;
  ret (JDict [("jsonrpc", JStr "2.0"); ("id", id);
              ("result",
               JDict [("protocolVersion", JStr "2025-03-26");
                      ("capabilities", its_capabilities);
                      ("serverInfo", its_server_info)])]).

(** The reply holds the very list [self.tools]; it is written out by
    [json.dumps] and dropped. *)
Definition handle_list_tools (request : dict) : method MCPTestServer json :=
  id <- without_self (getitem request "id") ;;
  its_tools <- attribute tools ;;
  ret (JDict [("jsonrpc", JStr "2.0"); ("id", id);
              ("result", JDict [("tools", its_tools)])]).

(** [self] is a parameter of [handle_call_tool] and occurs nowhere in its
    body. *)
Definition handle_call_tool (now : datetime) (request : dict)
  : method MCPTestServer json :=
  without_self (PythonServer.handle_call_tool now request).

Definition handle_request (now : datetime) (request : json)
  : method MCPTestServer json :=
  match request with
  | JDict d =>
      let method := dict_get d "method" JNone in
      if eq_str method "initialize" then handle_initialize d
      else if eq_str method "tools/list" then handle_list_tools d
      else if eq_str method "tools/call" then handle_call_tool now d
      else
        ret (JDict [("jsonrpc", JStr "2.0"); ("id", dict_get d "id" JNone);
                    ("error",
                     JDict [("code", JInt (-32601));
                            ("message",
                             JStr ("Method not found: " ++ py_str method))])])
  | _ => without_self (Raise (no_attribute request "get"))
  end.

(** The object the loop goes on with after a call. *)
Definition with_server (s : session) (self : MCPTestServer) : session :=
  {| server := self; running := running s; written := written s |}.

(** One iteration of the loop of [run_stdio]; the object [handle_request]
    leaves is the one the next iteration calls. *)
Definition iteration (s : session) (a : arrival) : session :=
  if is_empty (line a) then stop s
  else
    let text := strip (line a) in
    if is_empty text then s
    else
      match loads text with
      | Raise (JSONDecodeError msg) =>
          emit s (Stdout (JDict [("jsonrpc", JStr "2.0"); ("id", JNone);
                                 ("error",
                                  JDict [("code", JInt (-32700));
                                         ("message",
                                          JStr ("Parse error: " ++ msg))])]))
      | Raise e => stop (emit s (Stderr ("Server error: " ++ str_exn e)))
      | Return request =>
          match handle_request (clock a) request (server s) with
          | (Return response, self) =>
              emit (with_server s self) (Stdout response)
          | (Raise e, self) =>
              stop (emit (with_server s self)
                      (Stderr ("Server error: " ++ str_exn e)))
          end
      end.

Definition step (s : session) (a : arrival) : session :=
  if running s then iteration s a else s.

Definition run_stdio (self : MCPTestServer) (stdin : list arrival) : session :=
  let start :=
    {| server := self; running := true;
       written := [Stderr "Python MCP Test Server starting (stdio mode)"] |} in
  stop (emit (fold_left step stdin start)
             (Stderr "Python MCP Test Server stopped")).
End Handlers.

End Stdio.

(** *** websocket_mcp_server.py *)

Module Socket.
Import WebSocketServer.

Section Handlers.
Context `{Host}.

(** Only the [initialize] branch mentions [self]; the catalog of the
    [tools/list] branch is a list built anew by each call. *)
Definition handle_request (now : datetime) (request : json)
  : method WebSocketMCPServer json :=
  match request with
  | JDict d =>
      let method := dict_get d "method" JNone in
      let params := dict_get d "params" (JDict []) in
      let req_id := dict_get d "id" JNone in
      if eq_str method "initialize" then
        its_capabilities <- attribute capabilities ;;
        ret (JDict [("jsonrpc", JStr "2.0"); ("id", req_id);
                    ("result",
                     JDict [("protocolVersion", JStr "2024-11-05");
                            ("capabilities", its_capabilities);
                            ("serverInfo",
                             JDict [("name", JStr "websocket-demo-mcp-server");
                                    ("version", JStr "1.0.0")])])])
      else if eq_str method "tools/list" then
        ret (JDict [("jsonrpc", JStr "2.0"); ("id", req_id);
                    ("result", JDict [("tools", tool_catalog)])])
      else if eq_str method "tools/call" then
        without_self (call_tool now params req_id)
      else if eq_str method "notifications/initialized" then ret JNone
      else
        ret (JDict [("jsonrpc", JStr "2.0"); ("id", req_id);
                    ("result", JDict [])])
  | _ => without_self (Raise (no_attribute request "get"))
  end.

Definition with_server (s : session) (self : WebSocketMCPServer) : session :=
  {| server := self; sent := sent s |}.

(** The body of the loop of [handle_client] on one frame; [json.loads]
    runs inside the [try], before the object is touched. *)
Definition step (s : session) (a : arrival) : session :=
  match frame a with
  | BinaryFrame _ => s
  | TextFrame text =>
      match loads text with
      | Raise (JSONDecodeError _) =>
          send s (JDict [("jsonrpc", JStr "2.0"); ("id", JNone);
                         ("error",
                          JDict [("code", JInt (-32700));
                                 ("message", JStr "Parse error")])])
      | Raise e =>
          send s (JDict [("jsonrpc", JStr "2.0"); ("id", JNone);
                         ("error",
                          JDict [("code", JInt (-32603));
                                 ("message",
                                  JStr ("Internal error: " ++ str_exn e))])])
      | Return request =>
          match handle_request (clock a) request (server s) with
          | (Return response, self) =>
              if truthy response then send (with_server s self) response
              else with_server s self
          | (Raise (JSONDecodeError _), self) =>
              send (with_server s self)
                (JDict [("jsonrpc", JStr "2.0"); ("id", JNone);
                        ("error",
                         JDict [("code", JInt (-32700));
                                ("message", JStr "Parse error")])])
          | (Raise e, self) =>
              send (with_server s self)
                (JDict [("jsonrpc", JStr "2.0"); ("id", JNone);
                        ("error",
                         JDict [("code", JInt (-32603));
                                ("message",
                                 JStr ("Internal error: " ++ str_exn e))])])
          end
      end
  end.

Definition handle_client (self : WebSocketMCPServer) (frames : list arrival)
  : session :=
  fold_left step frames {| server := self; sent := [] |}.
End Handlers.

End Socket.

End Methods.

(** ** Concrete hosts, requests and wire texts used by the examples *)

Module Sample.
Import Py Clock.

(** [s] between double quotes, as a JSON string literal without escapes. *)
Definition lit (s : string) : string := dquote ++ s ++ dquote.

(** [{"jsonrpc":"2.0","method":"initialize"}] *)
Definition initialize_notification_text : string :=
  "{" ++ lit "jsonrpc" ++ ":" ++ lit "2.0" ++ "," ++ lit "method" ++ ":"
      ++ lit "initialize" ++ "}".

Definition initialize_notification : dict :=
  [("jsonrpc", JStr "2.0"); ("method", JStr "initialize")].

(** [{"jsonrpc":"2.0","method":"notifications/initialized"}] *)
Definition initialized_text : string :=
  "{" ++ lit "jsonrpc" ++ ":" ++ lit "2.0" ++ "," ++ lit "method" ++ ":"
      ++ lit "notifications/initialized" ++ "}".

Definition initialized : dict :=
  [("jsonrpc", JStr "2.0"); ("method", JStr "notifications/initialized")].

(** [{"jsonrpc":"2.0","id":1,"method":"tools/list"}] *)
Definition list_text : string :=
  "{" ++ lit "jsonrpc" ++ ":" ++ lit "2.0" ++ "," ++ lit "id" ++ ":1,"
      ++ lit "method" ++ ":" ++ lit "tools/list" ++ "}".

Definition list_request : dict :=
  [("jsonrpc", JStr "2.0"); ("id", JInt 1); ("method", JStr "tools/list")].

(** [{"jsonrpc":"2.0","id":7,"method":"tools/call","params":[]}] *)
Definition bad_params_text : string :=
  "{" ++ lit "jsonrpc" ++ ":" ++ lit "2.0" ++ "," ++ lit "id" ++ ":7,"
      ++ lit "method" ++ ":" ++ lit "tools/call" ++ "," ++ lit "params"
      ++ ":[]}".

Definition bad_params : dict :=
  [("jsonrpc", JStr "2.0"); ("id", JInt 7); ("method", JStr "tools/call");
   ("params", JList [])].

(** A [tools/call] request with the given id, tool name and arguments. *)
Definition call (id : Z) (name : string) (arguments : json) : dict :=
  [("jsonrpc", JStr "2.0"); ("id", JInt id); ("method", JStr "tools/call");
   ("params", JDict [("name", JStr name); ("arguments", arguments)])].

(** A request with the given id and method only. *)
Definition plain (id : Z) (method : string) : dict :=
  [("jsonrpc", JStr "2.0"); ("id", JInt id); ("method", JStr method)].

(** binary64 values: 0.5, 3.5 and 5.5. *)
Definition half : spec_float := S754_finite false 4503599627370496 (-53).
Definition three_and_a_half : spec_float :=
  S754_finite false 7881299347898368 (-51).
Definition five_and_a_half : spec_float :=
  S754_finite false 6192449487634432 (-50).

Definition expecting_value : string :=
  "Expecting value: line 1 column 1 (char 0)".

Definition known_texts : list (string * json) :=
  [("{}", JDict []);
   ("1", JInt 1);
   ("NaN", JFloat S754_nan);
   ("[]", JList []);
   (initialize_notification_text, JDict initialize_notification);
   (initialized_text, JDict initialized);
   (list_text, JDict list_request);
   (bad_params_text, JDict bad_params)].

(** A host given on a handful of inputs: [json.loads] by its graph on the
    texts above, among them [NaN], which it reads as a float although it
    is not JSON (every other text is refused as it refuses
    [not valid json]), [repr] of the floats above, [repr] of a string
    that needs no escape, and the default limit on the digits of an int. *)
Definition host : Host := {|
  loads text :=
    match lookup text known_texts with
    | Some v => Return v
    | None => Raise (JSONDecodeError expecting_value)
    end;
  float_repr x :=
    match x with
    | S754_finite false 4503599627370496 (-53) => "0.5"
    | S754_finite false 7881299347898368 (-51) => "3.5"
    | S754_finite false 6192449487634432 (-50) => "5.5"
    | S754_infinity false => "inf"
    | S754_infinity true => "-inf"
    | S754_zero false => "0.0"
    | S754_zero true => "-0.0"
    | _ => "nan"
    end;
  str_repr s := quote ++ s ++ quote;
  int_max_str_digits := 4300
|}.

Definition noon : datetime := {|
  year := 2025; month := 3; day := 26;
  hour := 12; minute := 0; second := 0; microsecond := 0
|}.

Definition newline : string := String "010"%char EmptyString.

(** A line as [readline] returns it, and a text frame, both handled at
    [noon]. *)
Definition stdin_line (text : string) : PythonServer.arrival :=
  {| PythonServer.line := text ++ newline; PythonServer.clock := noon |}.

Definition text_frame (text : string) : WebSocketServer.arrival :=
  {| WebSocketServer.frame := WebSocketServer.TextFrame text;
     WebSocketServer.clock := noon |}.

(** The two loops at their first iteration. *)
Definition stdio_start : PythonServer.session :=
  {| PythonServer.server := PythonServer.__init__;
     PythonServer.running := true;
     PythonServer.written :=
       [PythonServer.Stderr "Python MCP Test Server starting (stdio mode)"] |}.

Definition socket_start : WebSocketServer.session :=
  {| WebSocketServer.server := WebSocketServer.__init__;
     WebSocketServer.sent := [] |}.

(** 2 to the power 1024, the least positive int that [float] refuses. *)
Definition two_to_1024 : Z := 2 ^ 1024.

End Sample.

(** ** What a client reads in a reply, and what it sends *)

Module Contract.
Import Py.

(** [v[key]] as a reader of a reply takes it: nothing when [v] is not an
    object or has no such key. *)
Definition field (key : string) (v : json) : option json :=
  match v with
  | JDict d => lookup key d
  | _ => None
  end.

(** A JSON-RPC 2.0 reply to the request with the given id: a result, or an
    error whose code is one of [codes]. *)
Inductive envelope (codes : list Z) (id : json) : json -> Prop :=
| envelope_result (payload : json) :
    envelope codes id
      (JDict [("jsonrpc", JStr "2.0"); ("id", id); ("result", payload)])
| envelope_error (code : Z) (message : string) :
    In code codes ->
    envelope codes id
      (JDict [("jsonrpc", JStr "2.0"); ("id", id);
              ("error", JDict [("code", JInt code);
                               ("message", JStr message)])]).

(** [needle in text]: [needle] occurs in [text]. *)
Fixpoint mentions (needle text : string) : bool :=
  String.prefix needle text
  || match text with
     | EmptyString => false
     | String _ rest => mentions needle rest
     end.

(** The names a catalog advertises, in its order. *)
Definition tool_names (catalog : json) : list string :=
  match catalog with
  | JList items =>
      flat_map (fun item =>
                  match field "name" item with
                  | Some (JStr name) => [name]
                  | _ => []
                  end) items
  | _ => []
  end.

(** [request.get("params", {})] is an object: [params] is absent or an
    object. *)
Definition params_usable (d : dict) : bool :=
  is_dict (dict_get d "params" (JDict [])).

(** The methods python-server routes to a handler. *)
Definition routed (d : dict) : bool :=
  let method := dict_get d "method" JNone in
  eq_str method "initialize" || eq_str method "tools/list"
    || eq_str method "tools/call".

(** A line of whitespace only, which python-server skips. *)
Definition is_blank (a : PythonServer.arrival) : bool :=
  negb (Wire.is_empty (PythonServer.line a))
    && Wire.is_empty (Wire.strip (PythonServer.line a)).

Definition is_text (a : WebSocketServer.arrival) : bool :=
  match WebSocketServer.frame a with
  | WebSocketServer.TextFrame _ => true
  | WebSocketServer.BinaryFrame _ => false
  end.

(** A line python-server can take without leaving its loop: not the end of
    input, and blank, or refused by [json.loads] as malformed, or an object
    that reaches no handler or has an id and usable [params]. *)
Definition answerable `{Host} (a : PythonServer.arrival) : Prop :=
  Wire.is_empty (PythonServer.line a) = false
  /\ (Wire.is_empty (Wire.strip (PythonServer.line a)) = true
      \/ (exists msg : string,
             loads (Wire.strip (PythonServer.line a))
             = Raise (JSONDecodeError msg))
      \/ (exists d : dict,
             loads (Wire.strip (PythonServer.line a)) = Return (JDict d)
             /\ (routed d = false
                 \/ (lookup "id" d <> None /\ params_usable d = true)))).

(** The values printed on standard output, oldest first. *)
Definition stdout_of (events : list PythonServer.event) : list json :=
  flat_map (fun e =>
              match e with
              | PythonServer.Stdout v => [v]
              | PythonServer.Stderr _ => []
              end) events.

End Contract.

(** * Properties of the wire contract *)

Module PS := PythonServer.
Module WS := WebSocketServer.
Import Py Clock Wire.

(** ** Reading a request *)

Lemma dict_get_found (d : dict) (key : string) (default v : json) :
  lookup key d = Some v -> dict_get d key default = v.
Proof. unfold dict_get. now intros ->. Qed.

Lemma dict_get_missing (d : dict) (key : string) (default : json) :
  lookup key d = None -> dict_get d key default = default.
Proof. unfold dict_get. now intros ->. Qed.

Lemma getitem_found (d : dict) (key : string) (v : json) :
  lookup key d = Some v -> getitem d key = Return v.
Proof. unfold getitem. now intros ->. Qed.

Lemma getitem_missing (d : dict) (key : string) :
  lookup key d = None -> getitem d key = Raise (KeyError key).
Proof. unfold getitem. now intros ->. Qed.

Lemma eq_str_other (s t : string) : s <> t -> eq_str (JStr s) t = false.
Proof. intros Hne. now apply String.eqb_neq. Qed.

Lemma eq_str_same (s : string) : eq_str (JStr s) s = true.
Proof. apply String.eqb_refl. Qed.

Lemma py_get_not_dict (v : json) (key : string) (default : json) :
  is_dict v = false -> py_get v key default = Raise (no_attribute v "get").
Proof. destruct v; simpl; congruence. Qed.

(** Rewrites the method or tool-name tests of a dispatcher with the
    disequalities at hand. *)
Ltac settle_names :=
  repeat match goal with
         | Hne : ?s <> ?t |- context [eq_str (JStr ?s) ?t] =>
             rewrite (eq_str_other s t Hne)
         | Hne : ?s <> ?t |- context [String.eqb ?s ?t] =>
             rewrite (proj2 (String.eqb_neq s t) Hne)
         | |- context [eq_str (JStr ?s) ?s] => rewrite (eq_str_same s)
         end.

(** ** Dispatch by method and by tool name *)

Section Dispatch.
Context `{Host}.
Variable py : PS.MCPTestServer.
Variable ws : WS.WebSocketMCPServer.
Variable now : datetime.

(** C2, as the code has it: a request whose method is none of
    [initialize], [tools/list], [tools/call] gets from python-server the
    error -32601 with message [Method not found: {method}] (a
    [notifications/...] method included); the websocket server answers a
    method that is none of those three nor [notifications/initialized]
    with the empty result and the request's id, not with an error. *)
Theorem unknown_method_replies (d : dict) (m : string) :
  lookup "method" d = Some (JStr m) ->
  m <> "initialize" -> m <> "tools/list" -> m <> "tools/call" ->
  PS.handle_request py now (JDict d)
  = Return (PS.error_response (dict_get d "id" JNone) (-32601)
              ("Method not found: " ++ m))
  /\ (m <> "notifications/initialized" ->
      WS.handle_request ws now (JDict d)
      = Return (WS.result_response (dict_get d "id" JNone) (JDict []))).
Proof.
  intros Hm Hinit Hlist Hcall. split.
  - unfold PS.handle_request. rewrite (dict_get_found _ _ _ _ Hm).
    settle_names. reflexivity.
  - intros Hnote. unfold WS.handle_request.
    rewrite (dict_get_found _ _ _ _ Hm). settle_names. reflexivity.
Qed.

(** C3, as the code has it: a [tools/call] carrying an id and naming a
    tool outside the registry gets error -32601 from both servers;
    python-server's message is [Unknown tool: {name}], the websocket
    server's is [Method not found: Unknown tool '{name}'] and is reached
    only when [arguments] is absent or an object. *)
Theorem unknown_tool_replies (d p : dict) (name : string) (i : json) :
  lookup "method" d = Some (JStr "tools/call") ->
  lookup "params" d = Some (JDict p) ->
  lookup "name" p = Some (JStr name) ->
  lookup "id" d = Some i ->
  (name <> "echo" -> name <> "add" -> name <> "get_time" ->
   PS.handle_request py now (JDict d)
   = Return (PS.error_response i (-32601) ("Unknown tool: " ++ name)))
  /\ (name <> "websocket_search" -> name <> "websocket_time" ->
      is_dict (dict_get p "arguments" (JDict [])) = true ->
      WS.handle_request ws now (JDict d)
      = Return (WS.error_response i (-32601)
                  ("Method not found: Unknown tool " ++ quote ++ name
                     ++ quote))).
Proof.
  intros Hm Hp Hn Hi. split.
  - intros He Ha Hg. unfold PS.handle_request.
    rewrite (dict_get_found _ _ _ _ Hm). simpl.
    unfold PS.handle_call_tool. rewrite (dict_get_found _ _ _ _ Hp).
    simpl. rewrite (dict_get_found _ _ _ _ Hn).
    unfold PS.call_tool_body. settle_names.
    rewrite (getitem_found _ _ _ Hi). reflexivity.
  - intros Hs Ht Hargs. unfold WS.handle_request.
    rewrite (dict_get_found _ _ _ _ Hm), (dict_get_found _ _ _ _ Hp),
      (dict_get_found _ _ _ _ Hi). simpl.
    unfold WS.call_tool. simpl. rewrite (dict_get_found _ _ _ _ Hn), Hargs.
    simpl. settle_names. reflexivity.
Qed.

(** C4, as the code has it: when [params.arguments] is present and not an
    object, the websocket server fails with -32602 (InvalidParams);
    python-server has no such check: [echo] and [add] fail with -32603
    carrying the text of the AttributeError, [get_time] succeeds, any
    other name gets -32601. *)
Theorem arguments_not_an_object (d p : dict) (a i : json) :
  lookup "method" d = Some (JStr "tools/call") ->
  lookup "params" d = Some (JDict p) ->
  lookup "arguments" p = Some a ->
  is_dict a = false ->
  lookup "id" d = Some i ->
  WS.handle_request ws now (JDict d)
  = Return (WS.error_response i (-32602)
              ("Invalid parameters: arguments must be a JSON object, got "
                 ++ WS.str_type a))
  /\ PS.handle_request py now (JDict d)
     = Return
         (let name := dict_get p "name" JNone in
          if eq_str name "echo" || eq_str name "add" then
            PS.error_response i (-32603)
              ("Tool execution error: " ++ quote ++ type_name a ++ quote
                 ++ " object has no attribute " ++ quote ++ "get" ++ quote)
          else if eq_str name "get_time" then
            PS.result_response i
              (JDict [("content",
                       PS.text_content ("Current time: " ++ isoformat now))])
          else PS.error_response i (-32601) ("Unknown tool: " ++ py_str name)).
Proof.
  intros Hm Hp Ha Hnd Hi. split.
  - unfold WS.handle_request.
    rewrite (dict_get_found _ _ _ _ Hm), (dict_get_found _ _ _ _ Hp),
      (dict_get_found _ _ _ _ Hi). simpl.
    unfold WS.call_tool. simpl. rewrite (dict_get_found _ _ _ _ Ha), Hnd.
    reflexivity.
  - unfold PS.handle_request. rewrite (dict_get_found _ _ _ _ Hm). simpl.
    unfold PS.handle_call_tool. rewrite (dict_get_found _ _ _ _ Hp). simpl.
    rewrite (dict_get_found _ _ _ _ Ha).
    unfold PS.call_tool_body. cbv zeta.
    rewrite (getitem_found _ _ _ Hi), !(py_get_not_dict a) by assumption.
    destruct (eq_str (dict_get p "name" JNone) "echo");
      [reflexivity|].
    destruct (eq_str (dict_get p "name" JNone) "add");
      [reflexivity|].
    destruct (eq_str (dict_get p "name" JNone) "get_time"); reflexivity.
Qed.

(** [a + b] on two numbers, case by case. *)
Lemma py_add_numbers (a b : json) :
  is_number a = true -> is_number b = true ->
  match a, b with
  | JInt n, JInt m => py_add a b = Return (JInt (n + m))
  | JFloat x, JFloat y => py_add a b = Return (JFloat (float_add x y))
  | JInt n, JFloat y =>
      py_add a b = (x <- float_of_int n ;; Return (JFloat (float_add x y)))%py
  | JFloat x, JInt m =>
      py_add a b = (y <- float_of_int m ;; Return (JFloat (float_add x y)))%py
  | _, _ => False
  end.
Proof. destruct a, b; simpl; try discriminate; reflexivity. Qed.

(** [float(n)] fails in one way only. *)
Lemma float_of_int_raises (n : Z) (e : exn) :
  float_of_int n = Raise e ->
  e = OverflowError "int too large to convert to float".
Proof.
  unfold float_of_int.
  destruct (binary_normalize 53 1024 n 0 false); congruence.
Qed.

(** C6, as the code has it: a [tools/call] of [add] carrying an id, with
    numbers [a] and [b] (each 0 when absent), succeeds with the one text
    block [Result: ] followed by [str(a+b)] when both are floats, when both
    are ints and the sum is within the digits [str] accepts to write, or
    when the int operand converts to a finite float; otherwise (an int too
    large for a float next to a float, a sum of ints with too many digits)
    the call fails with -32603 and the text of the exception. *)
Theorem add_of_numbers (d p args : dict) (i : json) :
  lookup "method" d = Some (JStr "tools/call") ->
  lookup "params" d = Some (JDict p) ->
  lookup "name" p = Some (JStr "add") ->
  dict_get p "arguments" (JDict []) = JDict args ->
  lookup "id" d = Some i ->
  is_number (dict_get args "a" (JInt 0)) = true ->
  is_number (dict_get args "b" (JInt 0)) = true ->
  let reply := PS.handle_request py now (JDict d) in
  let ok text :=
    Return (PS.result_response i
              (JDict [("content", PS.text_content ("Result: " ++ text))])) in
  let failed e :=
    Return (PS.error_response i (-32603)
              ("Tool execution error: " ++ str_exn e)) in
  match dict_get args "a" (JInt 0), dict_get args "b" (JInt 0) with
  | JInt n, JInt m =>
      if within_limit (n + m) then reply = ok (str_int (n + m))
      else reply = failed exceeds_limit
  | JFloat x, JFloat y => reply = ok (float_repr (float_add x y))
  | JInt n, JFloat y =>
      match float_of_int n with
      | Return x => reply = ok (float_repr (float_add x y))
      | Raise _ =>
          reply = failed (OverflowError "int too large to convert to float")
      end
  | JFloat x, JInt m =>
      match float_of_int m with
      | Return y => reply = ok (float_repr (float_add x y))
      | Raise _ =>
          reply = failed (OverflowError "int too large to convert to float")
      end
  | _, _ => False
  end.
Proof.
  intros Hm Hp Hn Hargs Hi Ha Hb reply ok failed.
  assert (Hreply : reply
                   = try_except
                       (sum <- py_add (dict_get args "a" (JInt 0))
                                      (dict_get args "b" (JInt 0)) ;;
                        text <- str_computed sum ;;
                        ok text)%py
                       failed).
  { subst reply ok failed. unfold PS.handle_request.
    rewrite (dict_get_found _ _ _ _ Hm). simpl.
    unfold PS.handle_call_tool. rewrite (dict_get_found _ _ _ _ Hp).
    cbn [py_get bind]. rewrite (dict_get_found _ _ _ _ Hn), Hargs.
    unfold PS.call_tool_body. cbn [eq_str String.eqb Ascii.eqb Bool.eqb].
    cbn [py_get bind]. rewrite (getitem_found _ _ _ Hi).
    destruct (py_add _ _) as [sum|e]; [|reflexivity].
    cbn [bind]. destruct (str_computed sum); reflexivity. }
  pose proof (py_add_numbers _ _ Ha Hb) as Hsum.
  destruct (dict_get args "a" (JInt 0)) as [| | n | x | | |];
    destruct (dict_get args "b" (JInt 0)) as [| | m | y | | |];
    try contradiction; rewrite Hreply, Hsum; try reflexivity.
  - cbn [bind str_computed]. destruct (within_limit (n + m)); reflexivity.
  - destruct (float_of_int n) as [x|e] eqn:Hconv; [reflexivity|].
    now rewrite (float_of_int_raises _ _ Hconv).
  - destruct (float_of_int m) as [y|e] eqn:Hconv; [reflexivity|].
    now rewrite (float_of_int_raises _ _ Hconv).
Qed.

(** C8, as the code has it: on the websocket server, a [tools/call] of
    [websocket_search] whose [arguments] is absent or an object gets error
    -32602 with the message ['query' is required for websocket_search] when
    [query] is missing or the empty string, and succeeds with one text
    block that embeds the query when [query] is a non-empty string.  When
    [arguments] is present and not an object the error is -32602 too, but
    its message is about [arguments] and does not name [query]. *)
Theorem websocket_search_query (d p : dict) :
  lookup "method" d = Some (JStr "tools/call") ->
  lookup "params" d = Some (JDict p) ->
  lookup "name" p = Some (JStr "websocket_search") ->
  (forall args : dict,
      dict_get p "arguments" (JDict []) = JDict args ->
      (lookup "query" args = None
       \/ lookup "query" args = Some (JStr EmptyString) ->
       WS.handle_request ws now (JDict d)
       = Return
           (JDict [("jsonrpc", JStr "2.0"); ("id", dict_get d "id" JNone);
                   ("error",
                    JDict [("code", JInt (-32602));
                           ("message",
                            JStr ("Invalid parameters: " ++ quote ++ "query"
                                    ++ quote
                                    ++ " is required for websocket_search"))])])
       /\ Contract.mentions "query"
            ("Invalid parameters: " ++ quote ++ "query" ++ quote
               ++ " is required for websocket_search") = true)
      /\ (forall q : string,
            q <> EmptyString ->
            lookup "query" args = Some (JStr q) ->
            WS.handle_request ws now (JDict d)
            = Return
                (JDict [("jsonrpc", JStr "2.0"); ("id", dict_get d "id" JNone);
                        ("result",
                         JDict [("content",
                                 JList [JDict [("type", JStr "text");
                                               ("text",
                                                JStr (WS.search_text q))]])])])
            /\ exists before after : string,
                WS.search_text q = before ++ q ++ after))
  /\ (forall a : json,
        lookup "arguments" p = Some a ->
        is_dict a = false ->
        WS.handle_request ws now (JDict d)
        = Return
            (JDict [("jsonrpc", JStr "2.0"); ("id", dict_get d "id" JNone);
                    ("error",
                     JDict [("code", JInt (-32602));
                            ("message",
                             JStr ("Invalid parameters: arguments must be a "
                                     ++ "JSON object, got " ++ WS.str_type a))])])
        /\ Contract.mentions "query"
             ("Invalid parameters: arguments must be a JSON object, got "
                ++ WS.str_type a) = false).
Proof.
  intros Hm Hp Hn.
  assert (Hcall : WS.handle_request ws now (JDict d)
                  = WS.call_tool now (JDict p) (dict_get d "id" JNone)).
  { unfold WS.handle_request.
    now rewrite (dict_get_found _ _ _ _ Hm), (dict_get_found _ _ _ _ Hp). }
  rewrite Hcall. unfold WS.call_tool. cbn [py_get bind].
  rewrite (dict_get_found _ _ _ _ Hn). split.
  - intros args Hargs. rewrite Hargs.
    cbn [is_dict negb eq_str String.eqb Ascii.eqb Bool.eqb py_get bind].
    split.
    + intros Hquery. split; [|reflexivity].
      destruct Hquery as [Hnone | Hempty].
      * now rewrite (dict_get_missing _ _ _ Hnone).
      * now rewrite (dict_get_found _ _ _ _ Hempty).
    + intros q Hq Hfound. split.
      * rewrite (dict_get_found _ _ _ _ Hfound). cbn [truthy py_str].
        now rewrite (proj2 (String.eqb_neq _ _) Hq).
      * exists ("🔍 WEBSOCKET MCP SEARCH for " ++ quote).
        exists (quote
                  ++ ": Found comprehensive results via WebSocket connection. "
                  ++ "Server located relevant information about " ++ q
                  ++ " from distributed sources. "
                  ++ "[Response from WebSocket MCP Server]").
        reflexivity.
  - intros a Ha Hnd. rewrite (dict_get_found _ _ _ _ Ha), Hnd. cbn [negb].
    split; [reflexivity|].
    destruct a; try discriminate; reflexivity.
Qed.

(** What [initialize] answers: the websocket server always returns its
    fixed payload with the id it found ([None] when there is none);
    python-server returns its fixed payload when the request has an id and
    raises [KeyError] when it has none. *)
Lemma initialize_replies (d : dict) :
  lookup "method" d = Some (JStr "initialize") ->
  WS.handle_request ws now (JDict d)
  = Return (WS.result_response (dict_get d "id" JNone)
              (JDict [("protocolVersion", JStr "2024-11-05");
                      ("capabilities", WS.capabilities ws);
                      ("serverInfo",
                       JDict [("name", JStr "websocket-demo-mcp-server");
                              ("version", JStr "1.0.0")])]))
  /\ (forall i : json,
        lookup "id" d = Some i ->
        PS.handle_request py now (JDict d)
        = Return (PS.result_response i
                    (JDict [("protocolVersion", JStr "2025-03-26");
                            ("capabilities", PS.capabilities py);
                            ("serverInfo", PS.server_info py)])))
  /\ (lookup "id" d = None ->
      PS.handle_request py now (JDict d) = Raise (KeyError "id")).
Proof.
  intros Hm. repeat split.
  - unfold WS.handle_request. now rewrite (dict_get_found _ _ _ _ Hm).
  - intros i Hi. unfold PS.handle_request, PS.handle_initialize.
    now rewrite (dict_get_found _ _ _ _ Hm), (getitem_found _ _ _ Hi).
  - intros Hi. unfold PS.handle_request, PS.handle_initialize.
    now rewrite (dict_get_found _ _ _ _ Hm), (getitem_missing _ _ Hi).
Qed.

End Dispatch.

(** ** The read loops *)

Section Sessions.
Context `{Host}.

Lemma strip_keeps_empty (l : string) :
  is_empty (strip l) = false -> is_empty l = false.
Proof.
  destruct l; [|reflexivity]. intros E. vm_compute in E. discriminate E.
Qed.

(** A line that loads and is handled without an exception is answered on
    standard output and the loop goes on. *)
Lemma stdio_answers (s : PS.session) (a : PS.arrival) (request response : json) :
  PS.running s = true ->
  is_empty (strip (PS.line a)) = false ->
  loads (strip (PS.line a)) = Return request ->
  PS.handle_request (PS.server s) (PS.clock a) request = Return response ->
  PS.step s a = PS.emit s (PS.Stdout response).
Proof.
  intros Hrun Hline Hload Hreply. unfold PS.step, PS.iteration.
  now rewrite Hrun, (strip_keeps_empty _ Hline), Hline, Hload, Hreply.
Qed.

(** A line [json.loads] refuses is answered with the parse error. *)
Lemma stdio_parse_error (s : PS.session) (a : PS.arrival) (msg : string) :
  PS.running s = true ->
  is_empty (strip (PS.line a)) = false ->
  loads (strip (PS.line a)) = Raise (JSONDecodeError msg) ->
  PS.step s a
  = PS.emit s (PS.Stdout (PS.error_response JNone (-32700)
                            ("Parse error: " ++ msg))).
Proof.
  intros Hrun Hline Hload. unfold PS.step, PS.iteration.
  now rewrite Hrun, (strip_keeps_empty _ Hline), Hline, Hload.
Qed.

(** Neither loop ever replaces its server object. *)
Lemma stdio_step_server (s : PS.session) (a : PS.arrival) :
  PS.server (PS.step s a) = PS.server s.
Proof.
  unfold PS.step, PS.iteration.
  destruct (PS.running s); [|reflexivity].
  destruct (is_empty (PS.line a)); [reflexivity|].
  destruct (is_empty (strip (PS.line a))); [reflexivity|].
  destruct (loads (strip (PS.line a))) as [request|[]]; try reflexivity.
  destruct (PS.handle_request _ _ _); reflexivity.
Qed.

Lemma stdio_loop_server (stdin : list PS.arrival) :
  forall s : PS.session, PS.server (fold_left PS.step stdin s) = PS.server s.
Proof.
  induction stdin as [|a stdin IH]; intros s; [reflexivity|].
  cbn [fold_left]. now rewrite IH, stdio_step_server.
Qed.

Lemma socket_step_server (s : WS.session) (a : WS.arrival) :
  WS.server (WS.step s a) = WS.server s.
Proof.
  unfold WS.step. destruct (WS.frame a) as [text|payload]; [|reflexivity].
  destruct (bind _ _) as [response|[]]; try reflexivity.
  destruct (truthy response); reflexivity.
Qed.

Lemma socket_loop_server (frames : list WS.arrival) :
  forall s : WS.session, WS.server (fold_left WS.step frames s) = WS.server s.
Proof.
  induction frames as [|a frames IH]; intros s; [reflexivity|].
  cbn [fold_left]. now rewrite IH, socket_step_server.
Qed.

(** C1, as the code has it: the websocket server sends nothing for a
    request whose method is [notifications/initialized], with or without
    an id; python-server answers a request without id whose method is none
    of [initialize], [tools/list], [tools/call] with exactly one response
    on standard output, the error -32601 [Method not found: {method}] with
    a null id, and keeps running. *)
Theorem requests_without_id (d : dict) :
  (lookup "method" d = Some (JStr "notifications/initialized") ->
   forall (s : WS.session) (a : WS.arrival) (text : string),
     WS.frame a = WS.TextFrame text ->
     loads text = Return (JDict d) ->
     WS.handle_request (WS.server s) (WS.clock a) (JDict d) = Return JNone
     /\ WS.step s a = s)
  /\ (lookup "id" d = None ->
      eq_str (dict_get d "method" JNone) "initialize" = false ->
      eq_str (dict_get d "method" JNone) "tools/list" = false ->
      eq_str (dict_get d "method" JNone) "tools/call" = false ->
      forall (s : PS.session) (a : PS.arrival),
        PS.running s = true ->
        is_empty (strip (PS.line a)) = false ->
        loads (strip (PS.line a)) = Return (JDict d) ->
        PS.written (PS.step s a)
        = (PS.written s
             ++ [PS.Stdout
                   (JDict [("jsonrpc", JStr "2.0"); ("id", JNone);
                           ("error",
                            JDict [("code", JInt (-32601));
                                   ("message",
                                    JStr ("Method not found: "
                                            ++ py_str (dict_get d "method"
                                                         JNone)))])])])%list
        /\ PS.running (PS.step s a) = true).
Proof.
  split.
  - intros Hm s a text Hframe Hload.
    assert (Hreply : WS.handle_request (WS.server s) (WS.clock a) (JDict d)
                     = Return JNone).
    { unfold WS.handle_request. now rewrite (dict_get_found _ _ _ _ Hm). }
    split; [exact Hreply|].
    unfold WS.step. rewrite Hframe, Hload. cbn [bind].
    now rewrite Hreply.
  - intros Hid Hinit Hlist Hcall s a Hrun Hline Hload.
    rewrite (stdio_answers s a (JDict d)
               (PS.error_response JNone (-32601)
                  ("Method not found: " ++ py_str (dict_get d "method" JNone)))
               Hrun Hline Hload).
    + split; [reflexivity | exact Hrun].
    + unfold PS.handle_request.
      now rewrite Hinit, Hlist, Hcall, (dict_get_missing _ _ _ Hid).
Qed.


(** A method of python-server leaves the object as it found it, and what
    it returns or raises is what the dispatcher read on an unchanging
    object gives. *)
Lemma stdio_method_keeps_object (now : datetime) (request : json)
      (self : PS.MCPTestServer) :
  Methods.Stdio.handle_request now request self
  = (PS.handle_request self now request, self).
Proof.
  destruct request as [| | | | | |d]; try reflexivity.
  unfold Methods.Stdio.handle_request, PS.handle_request.
  destruct (eq_str _ "initialize").
  { unfold Methods.Stdio.handle_initialize, PS.handle_initialize,
      Methods.then_, Methods.without_self.
    destruct (getitem d "id"); reflexivity. }
  destruct (eq_str _ "tools/list").
  { unfold Methods.Stdio.handle_list_tools, PS.handle_list_tools,
      Methods.then_, Methods.without_self.
    destruct (getitem d "id"); reflexivity. }
  destruct (eq_str _ "tools/call"); reflexivity.
Qed.

Lemma socket_method_keeps_object (now : datetime) (request : json)
      (self : WS.WebSocketMCPServer) :
  Methods.Socket.handle_request now request self
  = (WS.handle_request self now request, self).
Proof.
  destruct request as [| | | | | |d]; try reflexivity.
  unfold Methods.Socket.handle_request, WS.handle_request.
  destruct (eq_str _ "initialize"); [reflexivity|].
  destruct (eq_str _ "tools/list"); [reflexivity|].
  destruct (eq_str _ "tools/call"); [reflexivity|].
  destruct (eq_str _ "notifications/initialized"); reflexivity.
Qed.

(** Hence the loops that hand the object from one call to the next are the
    loops on an unchanging object. *)
Lemma stdio_methods_step (s : PS.session) (a : PS.arrival) :
  Methods.Stdio.step s a = PS.step s a.
Proof.
  unfold Methods.Stdio.step, PS.step, Methods.Stdio.iteration, PS.iteration.
  destruct (PS.running s); [|reflexivity].
  destruct (is_empty (PS.line a)); [reflexivity|].
  destruct (is_empty (strip (PS.line a))); [reflexivity|].
  destruct (loads (strip (PS.line a))) as [request|[]]; try reflexivity.
  rewrite stdio_method_keeps_object.
  destruct s as [server running written]. cbn [PS.server PS.clock].
  destruct (PS.handle_request server (PS.clock a) request); reflexivity.
Qed.

Lemma socket_methods_step (s : WS.session) (a : WS.arrival) :
  Methods.Socket.step s a = WS.step s a.
Proof.
  unfold Methods.Socket.step, WS.step.
  destruct (WS.frame a) as [text|payload]; [|reflexivity].
  destruct (loads text) as [request|[]]; cbn [bind]; try reflexivity.
  rewrite socket_method_keeps_object.
  destruct s as [server sent]. cbn [WS.server].
  destruct (WS.handle_request server (WS.clock a) request) as [response|[]];
    reflexivity.
Qed.

Lemma stdio_methods_loop (history : list PS.arrival) :
  forall s : PS.session,
    PS.server (fold_left Methods.Stdio.step history s) = PS.server s.
Proof.
  induction history as [|a history IH]; intros s; [reflexivity|].
  cbn [fold_left]. now rewrite IH, stdio_methods_step, stdio_step_server.
Qed.

Lemma socket_methods_loop (history : list WS.arrival) :
  forall s : WS.session,
    WS.server (fold_left Methods.Socket.step history s) = WS.server s.
Proof.
  induction history as [|a history IH]; intros s; [reflexivity|].
  cbn [fold_left]. now rewrite IH, socket_methods_step, socket_step_server.
Qed.


(** On the websocket server a [tools/call] whose [params] is not an object
    raises, whatever the id. *)
Lemma params_not_an_object_raises (ws : WS.WebSocketMCPServer) (now : datetime)
      (d : dict) (p : json) :
  lookup "method" d = Some (JStr "tools/call") ->
  lookup "params" d = Some p ->
  is_dict p = false ->
  WS.handle_request ws now (JDict d) = Raise (no_attribute p "get").
Proof.
  intros Hm Hp Hnd. unfold WS.handle_request.
  rewrite (dict_get_found _ _ _ _ Hm), (dict_get_found _ _ _ _ Hp).
  cbn [eq_str String.eqb Ascii.eqb Bool.eqb]. unfold WS.call_tool.
  now rewrite (py_get_not_dict _ _ _ Hnd).
Qed.

(** C10: on the websocket server, an exception other than a
    JSONDecodeError raised while a text frame is loaded and handled is
    answered with exactly one message, the error with code -32603, the
    text of the exception and a null id, whatever id the request carried;
    the loop handles the rest of the frames. *)
Theorem internal_error_answered (s : WS.session) (a : WS.arrival)
        (text : string) (e : exn) (rest : list WS.arrival) :
  WS.frame a = WS.TextFrame text ->
  (request <- loads text ;;
   WS.handle_request (WS.server s) (WS.clock a) request)%py = Raise e ->
  (forall msg : string, e <> JSONDecodeError msg) ->
  WS.sent (WS.step s a)
  = (WS.sent s
       ++ [JDict [("jsonrpc", JStr "2.0"); ("id", JNone);
                  ("error",
                   JDict [("code", JInt (-32603));
                          ("message",
                           JStr ("Internal error: " ++ str_exn e))])]])%list
  /\ WS.server (WS.step s a) = WS.server s
  /\ fold_left WS.step (a :: rest) s = fold_left WS.step rest (WS.step s a).
Proof.
  intros Hframe Hraise Hother.
  assert (Hstep : WS.step s a
                  = WS.send s (WS.error_response JNone (-32603)
                                 ("Internal error: " ++ str_exn e))).
  { unfold WS.step. rewrite Hframe, Hraise.
    destruct e; try reflexivity. now contradiction (Hother msg). }
  cbn [fold_left]. rewrite Hstep.
  split; [reflexivity|]. split; reflexivity.
Qed.

End Sessions.

(** ** The claims on concrete requests *)

Import Sample.

(** Closes a goal about a closed term by evaluation. *)
Ltac evaluate := vm_compute; first [reflexivity | discriminate].

(** Against C1 as stated: the request
    [{"jsonrpc":"2.0","method":"notifications/initialized"}] has no id and
    python-server prints an error response for it; the request
    [{"jsonrpc":"2.0","method":"initialize"}] has no id and the websocket
    server sends the initialize result with a null id. *)
Lemma notification_is_answered :
  lookup "id" initialized = None
  /\ PS.written (PS.run_stdio (H := host) PS.__init__ [stdin_line initialized_text])
     = [PS.Stderr "Python MCP Test Server starting (stdio mode)";
        PS.Stdout (PS.error_response JNone (-32601)
                     "Method not found: notifications/initialized");
        PS.Stderr "Python MCP Test Server stopped"]
  /\ lookup "id" initialize_notification = None
  /\ WS.sent (WS.handle_client (H := host) WS.__init__
                [text_frame initialize_notification_text])
     = [WS.result_response JNone
          (JDict [("protocolVersion", JStr "2024-11-05");
                  ("capabilities", JDict [("tools", JDict [])]);
                  ("serverInfo",
                   JDict [("name", JStr "websocket-demo-mcp-server");
                          ("version", JStr "1.0.0")])])].
Proof. repeat split; evaluate. Qed.

Lemma requests_without_id_witness :
  lookup "method" initialized = Some (JStr "notifications/initialized")
  /\ WS.step (H := host) socket_start (text_frame initialized_text) = socket_start
  /\ lookup "id" initialized = None
  /\ PS.written (PS.step (H := host) stdio_start (stdin_line initialized_text))
     = [PS.Stderr "Python MCP Test Server starting (stdio mode)";
        PS.Stdout
          (JDict [("jsonrpc", JStr "2.0"); ("id", JNone);
                  ("error",
                   JDict [("code", JInt (-32601));
                          ("message",
                           JStr "Method not found: notifications/initialized")])])].
Proof.
  destruct (requests_without_id (H := host) initialized) as [Hsocket Hstdio].
  split; [reflexivity|]. split.
  - apply (Hsocket eq_refl socket_start (text_frame initialized_text)
             initialized_text); vm_compute; reflexivity.
  - split; [reflexivity|].
    apply (Hstdio eq_refl eq_refl eq_refl eq_refl stdio_start
             (stdin_line initialized_text)); vm_compute; reflexivity.
Defined.

(** Against C2 as stated: the websocket server answers the unknown method
    [resources/list] with an empty result, not with error -32601. *)
Lemma unknown_method_gets_a_result :
  WS.handle_request (H := host) WS.__init__ noon (JDict (plain 1 "resources/list"))
  = Return (WS.result_response (JInt 1) (JDict []))
  /\ WS.handle_request (H := host) WS.__init__ noon
       (JDict (plain 1 "resources/list"))
     <> Return (WS.error_response (JInt 1) (-32601)
                  "Method not found: resources/list").
Proof. split; evaluate. Qed.

Lemma unknown_method_replies_witness :
  lookup "method" (plain 1 "resources/list") = Some (JStr "resources/list")
  /\ PS.handle_request (H := host) PS.__init__ noon
       (JDict (plain 1 "resources/list"))
     = Return (PS.error_response (JInt 1) (-32601)
                 "Method not found: resources/list")
  /\ WS.handle_request (H := host) WS.__init__ noon
       (JDict (plain 1 "resources/list"))
     = Return (WS.result_response (JInt 1) (JDict [])).
Proof.
  destruct (unknown_method_replies (H := host) PS.__init__ WS.__init__ noon
              (plain 1 "resources/list") "resources/list" eq_refl)
    as [Hstdio Hsocket]; try discriminate.
  split; [reflexivity|]. split; [exact Hstdio|].
  apply Hsocket. discriminate.
Defined.

(** Against C3 as stated: for the unregistered tool [missing_tool] the
    websocket server's message is not [Unknown tool: missing_tool]. *)
Lemma unknown_tool_message_differs :
  WS.handle_request (H := host) WS.__init__ noon
    (JDict (call 3 "missing_tool" (JDict [])))
  = Return (WS.error_response (JInt 3) (-32601)
              ("Method not found: Unknown tool " ++ quote ++ "missing_tool"
                 ++ quote))
  /\ WS.handle_request (H := host) WS.__init__ noon
       (JDict (call 3 "missing_tool" (JDict [])))
     <> Return (WS.error_response (JInt 3) (-32601) "Unknown tool: missing_tool").
Proof. split; evaluate. Qed.

Lemma unknown_tool_replies_witness :
  lookup "id" (call 3 "missing_tool" (JDict [])) = Some (JInt 3)
  /\ PS.handle_request (H := host) PS.__init__ noon
       (JDict (call 3 "missing_tool" (JDict [])))
     = Return (PS.error_response (JInt 3) (-32601) "Unknown tool: missing_tool")
  /\ WS.handle_request (H := host) WS.__init__ noon
       (JDict (call 3 "missing_tool" (JDict [])))
     = Return (WS.error_response (JInt 3) (-32601)
                 ("Method not found: Unknown tool " ++ quote ++ "missing_tool"
                    ++ quote)).
Proof.
  destruct (unknown_tool_replies (H := host) PS.__init__ WS.__init__ noon
              (call 3 "missing_tool" (JDict []))
              [("name", JStr "missing_tool"); ("arguments", JDict [])]
              "missing_tool" (JInt 3) eq_refl eq_refl eq_refl eq_refl)
    as [Hstdio Hsocket].
  split; [reflexivity|]. split.
  - apply Hstdio; discriminate.
  - apply Hsocket; [discriminate | discriminate | reflexivity].
Defined.

(** Against C4 as stated: python-server answers an [echo] call whose
    [arguments] is the list [[1]] with code -32603, not -32602. *)
Lemma list_arguments_not_rejected_as_invalid :
  PS.handle_request (H := host) PS.__init__ noon
    (JDict (call 4 "echo" (JList [JInt 1])))
  = Return (PS.error_response (JInt 4) (-32603)
              ("Tool execution error: " ++ quote ++ "list" ++ quote
                 ++ " object has no attribute " ++ quote ++ "get" ++ quote)).
Proof. evaluate. Qed.

Lemma arguments_not_an_object_witness :
  lookup "arguments" [("name", JStr "echo"); ("arguments", JList [JInt 1])]
  = Some (JList [JInt 1])
  /\ is_dict (JList [JInt 1]) = false
  /\ WS.handle_request (H := host) WS.__init__ noon
       (JDict (call 4 "echo" (JList [JInt 1])))
     = Return (WS.error_response (JInt 4) (-32602)
                 ("Invalid parameters: arguments must be a JSON object, got "
                    ++ "<class " ++ quote ++ "list" ++ quote ++ ">"))
  /\ PS.handle_request (H := host) PS.__init__ noon
       (JDict (call 4 "echo" (JList [JInt 1])))
     = Return (PS.error_response (JInt 4) (-32603)
                 ("Tool execution error: " ++ quote ++ "list" ++ quote
                    ++ " object has no attribute " ++ quote ++ "get" ++ quote)).
Proof.
  destruct (arguments_not_an_object (H := host) PS.__init__ WS.__init__ noon
              (call 4 "echo" (JList [JInt 1]))
              [("name", JStr "echo"); ("arguments", JList [JInt 1])]
              (JList [JInt 1]) (JInt 4) eq_refl eq_refl eq_refl eq_refl eq_refl)
    as [Hsocket Hstdio].
  split; [reflexivity|]. split; [reflexivity|]. split.
  - exact Hsocket.
  - exact Hstdio.
Defined.



(** The whole run of python-server on a malformed line, a blank line and a
    [tools/list] request: one parse error, then the catalog. *)
Example stdio_survives_malformed_line :
  PS.written (PS.run_stdio (H := host) PS.__init__
                [stdin_line "not valid json"; stdin_line EmptyString;
                 stdin_line list_text])
  = [PS.Stderr "Python MCP Test Server starting (stdio mode)";
     PS.Stdout (PS.error_response JNone (-32700)
                  ("Parse error: " ++ expecting_value));
     PS.Stdout (PS.result_response (JInt 1)
                  (JDict [("tools", PS.tools PS.__init__)]));
     PS.Stderr "Python MCP Test Server stopped"].
Proof. evaluate. Qed.

(** Against C6 as stated: [add] with the int 2^1024 and the float 0.5, both
    numbers, does not succeed. *)
Lemma add_int_too_large_for_float :
  is_number (JInt two_to_1024) = true
  /\ is_number (JFloat half) = true
  /\ PS.handle_request (H := host) PS.__init__ noon
       (JDict (call 2 "add" (JDict [("a", JInt two_to_1024); ("b", JFloat half)])))
     = Return (PS.error_response (JInt 2) (-32603)
                 "Tool execution error: int too large to convert to float").
Proof. repeat split; evaluate. Qed.

Lemma add_of_numbers_witness :
  is_number (JInt 2) = true
  /\ is_number (JFloat three_and_a_half) = true
  /\ float_of_int 2 = Return (S754_finite false 4503599627370496 (-51))
  /\ PS.handle_request (H := host) PS.__init__ noon
       (JDict (call 2 "add"
                 (JDict [("a", JInt 2); ("b", JFloat three_and_a_half)])))
     = Return (PS.result_response (JInt 2)
                 (JDict [("content", PS.text_content "Result: 5.5")])).
Proof.
  split; [reflexivity|]. split; [reflexivity|]. split; [reflexivity|].
  exact (add_of_numbers (H := host) PS.__init__ noon
           (call 2 "add" (JDict [("a", JInt 2); ("b", JFloat three_and_a_half)]))
           [("name", JStr "add");
            ("arguments", JDict [("a", JInt 2); ("b", JFloat three_and_a_half)])]
           [("a", JInt 2); ("b", JFloat three_and_a_half)] (JInt 2)
           eq_refl eq_refl eq_refl eq_refl eq_refl eq_refl eq_refl).
Defined.


(** Against C8 as stated: a [websocket_search] call whose [arguments] is
    the empty list has no [query]; the error is -32602 but its message
    does not name [query]. *)
Lemma search_with_list_arguments :
  WS.handle_request (H := host) WS.__init__ noon
    (JDict (call 5 "websocket_search" (JList [])))
  = Return
      (JDict [("jsonrpc", JStr "2.0"); ("id", JInt 5);
              ("error",
               JDict [("code", JInt (-32602));
                      ("message",
                       JStr ("Invalid parameters: arguments must be a JSON "
                               ++ "object, got <class " ++ quote ++ "list"
                               ++ quote ++ ">"))])])
  /\ Contract.mentions "query"
       ("Invalid parameters: arguments must be a JSON object, got <class "
          ++ quote ++ "list" ++ quote ++ ">") = false.
Proof. split; evaluate. Qed.

Lemma websocket_search_query_witness :
  lookup "query" [("query", JStr "rocq")] = Some (JStr "rocq")
  /\ "rocq" <> EmptyString
  /\ WS.handle_request (H := host) WS.__init__ noon
       (JDict (call 5 "websocket_search" (JDict [("query", JStr "rocq")])))
     = Return
         (JDict [("jsonrpc", JStr "2.0"); ("id", JInt 5);
                 ("result",
                  JDict [("content",
                          JList [JDict [("type", JStr "text");
                                        ("text",
                                         JStr (WS.search_text "rocq"))]])])])
  /\ WS.handle_request (H := host) WS.__init__ noon
       (JDict (call 6 "websocket_search" (JDict [])))
     = Return
         (JDict [("jsonrpc", JStr "2.0"); ("id", JInt 6);
                 ("error",
                  JDict [("code", JInt (-32602));
                         ("message",
                          JStr ("Invalid parameters: " ++ quote ++ "query"
                                  ++ quote
                                  ++ " is required for websocket_search"))])]).
Proof.
  split; [reflexivity|]. split; [discriminate|]. split.
  - destruct (websocket_search_query (H := host) WS.__init__ noon
                (call 5 "websocket_search" (JDict [("query", JStr "rocq")]))
                [("name", JStr "websocket_search");
                 ("arguments", JDict [("query", JStr "rocq")])]
                eq_refl eq_refl eq_refl) as [Hobject _].
    destruct (Hobject [("query", JStr "rocq")] eq_refl) as [_ Hfound].
    apply (Hfound "rocq"); [discriminate | reflexivity].
  - destruct (websocket_search_query (H := host) WS.__init__ noon
                (call 6 "websocket_search" (JDict []))
                [("name", JStr "websocket_search"); ("arguments", JDict [])]
                eq_refl eq_refl eq_refl) as [Hobject _].
    destruct (Hobject [] eq_refl) as [Hmissing _].
    apply Hmissing. left. reflexivity.
Defined.

(** C9 on python-server at the request
    [{"jsonrpc":"2.0","method":"initialize"}]: [handle_initialize] raises
    KeyError instead of returning the initialize result, and [run_stdio]
    leaves its loop, so that the [tools/list] request that follows is
    never answered. *)
Theorem initialize_without_id_raises :
  loads (Host := host) initialize_notification_text
  = Return (JDict initialize_notification)
  /\ PS.handle_request (H := host) PS.__init__ noon (JDict initialize_notification)
     = Raise (KeyError "id")
  /\ PS.written (PS.run_stdio (H := host) PS.__init__
                   [stdin_line initialize_notification_text;
                    stdin_line list_text])
     = [PS.Stderr "Python MCP Test Server starting (stdio mode)";
        PS.Stderr ("Server error: " ++ quote ++ "id" ++ quote);
        PS.Stderr "Python MCP Test Server stopped"].
Proof. repeat split; evaluate. Qed.

Lemma initialize_replies_witness :
  lookup "method" (plain 1 "initialize") = Some (JStr "initialize")
  /\ PS.handle_request (H := host) PS.__init__ noon (JDict (plain 1 "initialize"))
     = Return (PS.result_response (JInt 1)
                 (JDict [("protocolVersion", JStr "2025-03-26");
                         ("capabilities", PS.capabilities PS.__init__);
                         ("serverInfo", PS.server_info PS.__init__)])).
Proof.
  split; [reflexivity|].
  apply (initialize_replies (H := host) PS.__init__ WS.__init__ noon
           (plain 1 "initialize") eq_refl).
  reflexivity.
Defined.

Lemma internal_error_answered_witness :
  lookup "id" bad_params = Some (JInt 7)
  /\ WS.handle_request (H := host) WS.__init__ noon (JDict bad_params)
     = Raise (no_attribute (JList []) "get")
  /\ WS.sent (WS.step (H := host) socket_start (text_frame bad_params_text))
     = [JDict [("jsonrpc", JStr "2.0"); ("id", JNone);
               ("error",
                JDict [("code", JInt (-32603));
                       ("message",
                        JStr ("Internal error: " ++ quote ++ "list" ++ quote
                                ++ " object has no attribute " ++ quote
                                ++ "get" ++ quote))])]].
Proof.
  split; [reflexivity|]. split.
  - apply (params_not_an_object_raises (H := host)); reflexivity.
  - apply (internal_error_answered (H := host) socket_start
             (text_frame bad_params_text) bad_params_text
             (no_attribute (JList []) "get") [text_frame list_text]).
    + reflexivity.
    + vm_compute. reflexivity.
    + unfold no_attribute. discriminate.
Defined.

(** The first scenario of the specification on python-server. *)
Example echo_hi :
  PS.handle_request (H := host) PS.__init__ noon
    (JDict (call 1 "echo" (JDict [("text", JStr "hi")])))
  = Return (PS.result_response (JInt 1)
              (JDict [("content", PS.text_content "Echo: hi")])).
Proof. evaluate. Qed.

(** * Further properties of the two servers *)

(** ** The shape of a reply *)

Lemma getitem_id (d : dict) (i : json) :
  getitem d "id" = Return i -> i = dict_get d "id" JNone.
Proof.
  unfold getitem, dict_get. destruct (lookup "id" d); congruence.
Qed.

(** Opens the next [bind] of the goal by cases on its first computation. *)
Ltac open_bind :=
  match goal with
  | |- context [bind ?m _] => destruct m eqn:?; cbn [bind]
  end.

(** Closes a goal [Return v = Return r -> envelope ...] once the id read by
    [request["id"]] is known to be the one [request.get("id")] reads. *)
Ltac close_envelope :=
  try discriminate;
  repeat match goal with
         | Hid : getitem _ "id" = Return _ |- _ =>
             apply getitem_id in Hid; subst
         end;
  let E := fresh in
  intros E; injection E as <-;
  first [ apply Contract.envelope_result
        | apply Contract.envelope_error; cbn; tauto ].

Lemma eq_str_true (v : json) (s : string) : eq_str v s = true -> v = JStr s.
Proof.
  destruct v; try discriminate. cbn [eq_str]. intros E.
  now apply String.eqb_eq in E as ->.
Qed.

Section Replies.
Context `{Host}.
Variable py : PS.MCPTestServer.
Variable ws : WS.WebSocketMCPServer.
Variable now : datetime.

Lemma stdio_body_envelope (d : dict) (tool_name arguments r : json) :
  PS.call_tool_body now d tool_name arguments = Return r ->
  Contract.envelope [-32601; -32603] (dict_get d "id" JNone) r.
Proof.
  unfold PS.call_tool_body.
  destruct (eq_str tool_name "echo"); [repeat open_bind; close_envelope|].
  destruct (eq_str tool_name "add"); [repeat open_bind; close_envelope|].
  destruct (eq_str tool_name "get_time"); repeat open_bind; close_envelope.
Qed.

(** python-server's dispatcher returns only for an object request, and
    then an envelope for the id that [request.get("id")] reads. *)
Lemma stdio_dispatch_envelope (request r : json) :
  PS.handle_request py now request = Return r ->
  exists d : dict,
    request = JDict d
    /\ Contract.envelope [-32601; -32603] (dict_get d "id" JNone) r.
Proof.
  destruct request as [| | | | | |d]; try discriminate.
  intros Hr. exists d. split; [reflexivity|]. revert Hr.
  unfold PS.handle_request.
  destruct (eq_str (dict_get d "method" JNone) "initialize").
  { unfold PS.handle_initialize. open_bind; close_envelope. }
  destruct (eq_str (dict_get d "method" JNone) "tools/list").
  { unfold PS.handle_list_tools. open_bind; close_envelope. }
  destruct (eq_str (dict_get d "method" JNone) "tools/call");
    [|close_envelope].
  unfold PS.handle_call_tool. do 2 (open_bind; [|discriminate]).
  unfold try_except.
  destruct (PS.call_tool_body _ _ _ _) eqn:Hbody.
  - intros E. injection E as <-. exact (stdio_body_envelope _ _ _ _ Hbody).
  - open_bind; close_envelope.
Qed.

(** X1: whatever python-server's dispatcher returns for an object request
    is a JSON-RPC envelope: [jsonrpc] is 2.0, the id is the request's id
    (null when it has none), and it holds a result or an error whose code
    is -32601 or -32603, never both. *)
Theorem stdio_reply_envelope (d : dict) (r : json) :
  PS.handle_request py now (JDict d) = Return r ->
  Contract.envelope [-32601; -32603] (dict_get d "id" JNone) r.
Proof.
  intros Hr. destruct (stdio_dispatch_envelope _ _ Hr) as [d' [Hd Henv]].
  now injection Hd as <-.
Qed.

(** The websocket dispatcher returns only for an object request: [None]
    for the method [notifications/initialized] and for no other, or an
    envelope for the id that [request.get("id")] reads. *)
Lemma socket_dispatch_envelope (request r : json) :
  WS.handle_request ws now request = Return r ->
  exists d : dict,
    request = JDict d
    /\ ((r = JNone
         /\ dict_get d "method" JNone = JStr "notifications/initialized")
        \/ Contract.envelope [-32601; -32602] (dict_get d "id" JNone) r).
Proof.
  destruct request as [| | | | | |d]; try discriminate.
  intros Hr. exists d. split; [reflexivity|]. revert Hr.
  unfold WS.handle_request.
  destruct (eq_str (dict_get d "method" JNone) "initialize");
    [intros Hr; right; revert Hr; close_envelope|].
  destruct (eq_str (dict_get d "method" JNone) "tools/list");
    [intros Hr; right; revert Hr; close_envelope|].
  destruct (eq_str (dict_get d "method" JNone) "tools/call").
  - intros Hcall. right. revert Hcall. unfold WS.call_tool.
    do 2 (open_bind; [|discriminate]).
    destruct (negb (is_dict _)); [close_envelope|].
    destruct (eq_str _ "websocket_search").
    { open_bind; [|discriminate].
      destruct (negb (truthy _)); close_envelope. }
    destruct (eq_str _ "websocket_time"); close_envelope.
  - destruct (eq_str (dict_get d "method" JNone) "notifications/initialized")
      eqn:Hnote.
    + intros [= <-]. left. split; [reflexivity|].
      exact (eq_str_true _ _ Hnote).
    + intros Hr. right. revert Hr. close_envelope.
Qed.

(** X2: whatever the websocket dispatcher returns for an object request is
    [None] or a JSON-RPC envelope with the request's id (null when it has
    none), holding a result or an error whose code is -32601 or -32602. *)
Theorem socket_reply_envelope (d : dict) (r : json) :
  WS.handle_request ws now (JDict d) = Return r ->
  r = JNone
  \/ Contract.envelope [-32601; -32602] (dict_get d "id" JNone) r.
Proof.
  intros Hr. destruct (socket_dispatch_envelope _ _ Hr) as [d' [Hd Hshape]].
  injection Hd as <-. destruct Hshape as [[Hnone _] | Henv]; [now left|].
  now right.
Qed.

Lemma params_usable_get (d : dict) (key : string) (default : json) :
  Contract.params_usable d = true ->
  exists v : json,
    py_get (dict_get d "params" (JDict [])) key default = Return v.
Proof.
  unfold Contract.params_usable.
  destruct (dict_get d "params" (JDict [])); try discriminate.
  intros _. now eexists.
Qed.

(** With an id at hand the [try] block of [handle_call_tool] and its
    handler both end in a reply. *)
Lemma stdio_call_returns (d : dict) (i : json) :
  lookup "id" d = Some i ->
  Contract.params_usable d = true ->
  exists r : json, PS.handle_call_tool now d = Return r.
Proof.
  intros Hi Hp. unfold PS.handle_call_tool.
  destruct (params_usable_get d "name" JNone Hp) as [tool_name ->].
  destruct (params_usable_get d "arguments" (JDict []) Hp) as [arguments ->].
  cbn [bind]. unfold try_except.
  destruct (PS.call_tool_body _ _ _ _); [now eexists|].
  rewrite (getitem_found _ _ _ Hi). now eexists.
Qed.

(** python-server's dispatcher returns when no handler is reached, or
    when the request has an id and usable [params]. *)
Lemma stdio_dispatch_returns (d : dict) :
  Contract.routed d = false
  \/ (lookup "id" d <> None /\ Contract.params_usable d = true) ->
  exists r : json, PS.handle_request py now (JDict d) = Return r.
Proof.
  unfold Contract.routed, PS.handle_request. cbv zeta.
  intros [Hfree | [Hid Hp]].
  - destruct (eq_str _ "initialize"); [discriminate|].
    destruct (eq_str _ "tools/list"); [discriminate|].
    destruct (eq_str _ "tools/call"); [discriminate|]. now eexists.
  - destruct (lookup "id" d) as [i|] eqn:Hi; [|contradiction].
    destruct (eq_str _ "initialize").
    { unfold PS.handle_initialize. rewrite (getitem_found _ _ _ Hi).
      now eexists. }
    destruct (eq_str _ "tools/list").
    { unfold PS.handle_list_tools. rewrite (getitem_found _ _ _ Hi).
      now eexists. }
    destruct (eq_str _ "tools/call"); [|now eexists].
    exact (stdio_call_returns d i Hi Hp).
Qed.

(** X3: python-server's dispatcher never raises on an object request that
    carries an id and whose [params] is absent or an object, whatever the
    method, the tool and the arguments are. *)
Theorem stdio_call_never_raises (d : dict) (i : json) :
  lookup "id" d = Some i ->
  Contract.params_usable d = true ->
  exists r : json, PS.handle_request py now (JDict d) = Return r.
Proof.
  intros Hi Hp. apply stdio_dispatch_returns. right.
  split; [congruence | exact Hp].
Qed.

(** Without an id no path of the [try] block returns. *)
Lemma stdio_body_needs_id (d : dict) (tool_name arguments : json) :
  lookup "id" d = None ->
  exists e : exn, PS.call_tool_body now d tool_name arguments = Raise e.
Proof.
  intros Hi. unfold PS.call_tool_body. rewrite (getitem_missing _ _ Hi).
  destruct (eq_str tool_name "echo");
    [repeat open_bind; now eexists|].
  destruct (eq_str tool_name "add");
    [repeat open_bind; now eexists|].
  destruct (eq_str tool_name "get_time"); cbn [bind]; now eexists.
Qed.

(** X4: the two ways python-server's dispatcher raises on an object
    request.  A [tools/call] whose [params] is present and not an object
    raises the AttributeError of [params.get], outside the [try] block and
    whatever the id; a request for [initialize], [tools/list] or
    [tools/call] (with usable [params]) that has no id raises
    [KeyError('id')], also when the tool itself failed, because the
    [except] clause reads [request["id"]] again. *)
Theorem stdio_dispatch_raises (d : dict) :
  (eq_str (dict_get d "method" JNone) "tools/call" = true ->
   Contract.params_usable d = false ->
   PS.handle_request py now (JDict d)
   = Raise (no_attribute (dict_get d "params" (JDict [])) "get"))
  /\ (Contract.routed d = true ->
      lookup "id" d = None ->
      (eq_str (dict_get d "method" JNone) "tools/call" = true ->
       Contract.params_usable d = true) ->
      PS.handle_request py now (JDict d) = Raise (KeyError "id")).
Proof.
  split.
  - intros Hcall Hp. unfold PS.handle_request.
    rewrite (eq_str_true _ _ Hcall). cbn [eq_str String.eqb Ascii.eqb Bool.eqb].
    unfold PS.handle_call_tool.
    now rewrite (py_get_not_dict _ _ _ Hp).
  - intros Hrouted Hi Hp. unfold PS.handle_request.
    unfold Contract.routed in Hrouted. cbv zeta in Hrouted.
    destruct (eq_str _ "initialize").
    { unfold PS.handle_initialize. now rewrite (getitem_missing _ _ Hi). }
    destruct (eq_str _ "tools/list").
    { unfold PS.handle_list_tools. now rewrite (getitem_missing _ _ Hi). }
    destruct (eq_str _ "tools/call"); [|discriminate].
    specialize (Hp eq_refl). unfold PS.handle_call_tool.
    destruct (params_usable_get d "name" JNone Hp) as [tool_name ->].
    destruct (params_usable_get d "arguments" (JDict []) Hp) as [arguments ->].
    cbn [bind].
    destruct (stdio_body_needs_id d tool_name arguments Hi) as [e ->].
    cbn [try_except]. now rewrite (getitem_missing _ _ Hi).
Qed.

(** X5: the websocket dispatcher raises on an object request exactly when
    the method is [tools/call] and [params] is present and not an object;
    the exception is then the AttributeError of [params.get].  A missing
    id, an unknown method or tool, or bad arguments never make it raise. *)
Theorem socket_dispatch_raises (d : dict) :
  (exists e : exn, WS.handle_request ws now (JDict d) = Raise e)
  <-> eq_str (dict_get d "method" JNone) "tools/call" = true
      /\ Contract.params_usable d = false.
Proof.
  unfold WS.handle_request. split.
  - intros [e He]. revert He.
    destruct (eq_str _ "initialize"); [discriminate|].
    destruct (eq_str _ "tools/list"); [discriminate|].
    destruct (eq_str _ "tools/call");
      [|destruct (eq_str _ "notifications/initialized"); discriminate].
    intros He. split; [reflexivity|].
    destruct (Contract.params_usable d) eqn:Hp; [|reflexivity].
    revert He. unfold WS.call_tool.
    destruct (params_usable_get d "name" JNone Hp) as [tool_name ->].
    destruct (params_usable_get d "arguments" (JDict []) Hp) as [arguments ->].
    cbn [bind].
    destruct arguments; cbn [is_dict negb]; try discriminate.
    destruct (eq_str tool_name "websocket_search").
    { cbn [py_get bind]. destruct (negb (truthy _)); discriminate. }
    destruct (eq_str tool_name "websocket_time"); discriminate.
  - intros [Hcall Hp]. rewrite (eq_str_true _ _ Hcall).
    cbn [eq_str String.eqb Ascii.eqb Bool.eqb]. unfold WS.call_tool.
    rewrite (py_get_not_dict _ _ _ Hp). now eexists.
Qed.

End Replies.

(** ** The tools on arguments their schemas do not foresee *)

Section Tools.
Context `{Host}.
Variable py : PS.MCPTestServer.
Variable ws : WS.WebSocketMCPServer.
Variable now : datetime.

(** A [tools/call] of python-server that reaches the [try] block. *)
Lemma stdio_call_body (d p : dict) (name arguments : json) :
  lookup "method" d = Some (JStr "tools/call") ->
  lookup "params" d = Some (JDict p) ->
  dict_get p "name" JNone = name ->
  dict_get p "arguments" (JDict []) = arguments ->
  PS.handle_request py now (JDict d)
  = try_except
      (PS.call_tool_body now d name arguments)
      (fun e =>
         id <- getitem d "id" ;;
         Return (PS.error_response id (-32603)
                   ("Tool execution error: " ++ str_exn e)))%py.
Proof.
  intros Hm Hp Hn Ha. unfold PS.handle_request.
  rewrite (dict_get_found _ _ _ _ Hm).
  cbn [eq_str String.eqb Ascii.eqb Bool.eqb].
  unfold PS.handle_call_tool. rewrite (dict_get_found _ _ _ _ Hp).
  cbn [py_get bind]. now rewrite Hn, Ha.
Qed.

(** A [tools/call] of the websocket server past the check of
    [arguments]. *)
Lemma socket_call_body (d p args : dict) (name : json) :
  lookup "method" d = Some (JStr "tools/call") ->
  lookup "params" d = Some (JDict p) ->
  dict_get p "name" JNone = name ->
  dict_get p "arguments" (JDict []) = JDict args ->
  WS.handle_request ws now (JDict d)
  = WS.call_tool now (JDict p) (dict_get d "id" JNone).
Proof.
  intros Hm Hp Hn Ha. unfold WS.handle_request.
  rewrite (dict_get_found _ _ _ _ Hm), (dict_get_found _ _ _ _ Hp).
  reflexivity.
Qed.

(** X6: [echo] on python-server never fails when the request has an id and
    [arguments] is absent or an object: the text is [Echo: ] followed by
    [str(text)], so a missing [text] gives [Echo: ] alone and a [text] that
    is not a string (a number, [null], a list) is written as Python prints
    it instead of being refused. *)
Theorem echo_renders_any_text (d p args : dict) (i : json) :
  lookup "method" d = Some (JStr "tools/call") ->
  lookup "params" d = Some (JDict p) ->
  lookup "name" p = Some (JStr "echo") ->
  dict_get p "arguments" (JDict []) = JDict args ->
  lookup "id" d = Some i ->
  PS.handle_request py now (JDict d)
  = Return (PS.result_response i
              (JDict [("content",
                       PS.text_content
                         ("Echo: "
                            ++ py_str (dict_get args "text"
                                         (JStr EmptyString))))])).
Proof.
  intros Hm Hp Hn Ha Hi.
  rewrite (stdio_call_body d p (JStr "echo") (JDict args) Hm Hp
             (dict_get_found _ _ _ _ Hn) Ha).
  unfold PS.call_tool_body. cbn [eq_str String.eqb Ascii.eqb Bool.eqb].
  cbn [py_get bind]. now rewrite (getitem_found _ _ _ Hi).
Qed.

(** What [add] answers, whatever its two operands are. *)
Lemma stdio_add_reply (d p args : dict) (i : json) :
  lookup "method" d = Some (JStr "tools/call") ->
  lookup "params" d = Some (JDict p) ->
  lookup "name" p = Some (JStr "add") ->
  dict_get p "arguments" (JDict []) = JDict args ->
  lookup "id" d = Some i ->
  PS.handle_request py now (JDict d)
  = match (sum <- py_add (dict_get args "a" (JInt 0))
                         (dict_get args "b" (JInt 0)) ;;
           str_computed sum)%py with
    | Return text =>
        Return (PS.result_response i
                  (JDict [("content", PS.text_content ("Result: " ++ text))]))
    | Raise e =>
        Return (PS.error_response i (-32603)
                  ("Tool execution error: " ++ str_exn e))
    end.
Proof.
  intros Hm Hp Hn Ha Hi.
  rewrite (stdio_call_body d p (JStr "add") (JDict args) Hm Hp
             (dict_get_found _ _ _ _ Hn) Ha).
  unfold PS.call_tool_body. cbn [eq_str String.eqb Ascii.eqb Bool.eqb].
  cbn [py_get bind]. rewrite (getitem_found _ _ _ Hi).
  destruct (py_add _ _) as [sum|e]; [|reflexivity].
  cbn [bind]. destruct (str_computed sum); reflexivity.
Qed.

(** X7: [add] on python-server does not check that its operands are
    numbers.  Two strings are concatenated and the call succeeds; a string
    first operand with a number as second (the default 0 when [b] is
    absent) fails with -32603 and the text of Python's TypeError. *)
Theorem add_beyond_numbers (d p args : dict) (i : json) (s : string) :
  lookup "method" d = Some (JStr "tools/call") ->
  lookup "params" d = Some (JDict p) ->
  lookup "name" p = Some (JStr "add") ->
  dict_get p "arguments" (JDict []) = JDict args ->
  lookup "id" d = Some i ->
  lookup "a" args = Some (JStr s) ->
  (forall t : string,
      lookup "b" args = Some (JStr t) ->
      PS.handle_request py now (JDict d)
      = Return (PS.result_response i
                  (JDict [("content",
                           PS.text_content ("Result: " ++ s ++ t))])))
  /\ (is_number (dict_get args "b" (JInt 0)) = true ->
      PS.handle_request py now (JDict d)
      = Return (PS.error_response i (-32603)
                  ("Tool execution error: can only concatenate str (not "
                     ++ dquote ++ type_name (dict_get args "b" (JInt 0))
                     ++ dquote ++ ") to str"))).
Proof.
  intros Hm Hp Hn Ha Hi Hs.
  rewrite (stdio_add_reply d p args i Hm Hp Hn Ha Hi).
  rewrite (dict_get_found _ _ _ _ Hs). split.
  - intros t Ht. now rewrite (dict_get_found _ _ _ _ Ht).
  - intros Hb. destruct (dict_get args "b" (JInt 0)); try discriminate;
      reflexivity.
Qed.

(** X8: [websocket_search] judges its [query] by truth value, not by type
    or presence.  When [arguments] is absent or an object, a [query] that
    Python counts as false (absent, the empty string, 0, [false], [null],
    an empty list or object) is reported as missing with -32602; any other
    value, string or not, succeeds and is written into the text with
    [str]. *)
Theorem search_judges_query_by_truth (d p args : dict) :
  lookup "method" d = Some (JStr "tools/call") ->
  lookup "params" d = Some (JDict p) ->
  lookup "name" p = Some (JStr "websocket_search") ->
  dict_get p "arguments" (JDict []) = JDict args ->
  WS.handle_request ws now (JDict d)
  = Return
      (if truthy (dict_get args "query" (JStr EmptyString))
       then
         WS.result_response (dict_get d "id" JNone)
           (JDict [("content",
                    JList [JDict [("type", JStr "text");
                                  ("text",
                                   JStr (WS.search_text
                                           (py_str
                                              (dict_get args "query"
                                                 (JStr EmptyString)))))]])])
       else
         WS.error_response (dict_get d "id" JNone) (-32602)
           ("Invalid parameters: " ++ quote ++ "query" ++ quote
              ++ " is required for websocket_search")).
Proof.
  intros Hm Hp Hn Ha.
  rewrite (socket_call_body d p args (JStr "websocket_search") Hm Hp
             (dict_get_found _ _ _ _ Hn) Ha).
  unfold WS.call_tool. cbn [py_get bind].
  rewrite (dict_get_found _ _ _ _ Hn), Ha.
  cbn [is_dict negb eq_str String.eqb Ascii.eqb Bool.eqb py_get bind].
  destruct (truthy _); reflexivity.
Qed.

(** X9: a [tools/call] that names no tool ([params] absent, or an object
    without [name]) is answered as an unknown tool called [None]:
    python-server says [Unknown tool: None], the websocket server, when
    [arguments] is absent or an object, says
    [Method not found: Unknown tool 'None']. *)
Theorem call_without_name (d p : dict) (i : json) :
  lookup "method" d = Some (JStr "tools/call") ->
  dict_get d "params" (JDict []) = JDict p ->
  lookup "name" p = None ->
  lookup "id" d = Some i ->
  PS.handle_request py now (JDict d)
  = Return (PS.error_response i (-32601) "Unknown tool: None")
  /\ (is_dict (dict_get p "arguments" (JDict [])) = true ->
      WS.handle_request ws now (JDict d)
      = Return (WS.error_response i (-32601)
                  ("Method not found: Unknown tool " ++ quote ++ "None"
                     ++ quote))).
Proof.
  intros Hm Hp Hn Hi. split.
  - unfold PS.handle_request. rewrite (dict_get_found _ _ _ _ Hm).
    cbn [eq_str String.eqb Ascii.eqb Bool.eqb].
    unfold PS.handle_call_tool. rewrite Hp. cbn [py_get bind].
    rewrite (dict_get_missing _ _ _ Hn). unfold PS.call_tool_body.
    cbn [eq_str]. now rewrite (getitem_found _ _ _ Hi).
  - intros Ha. unfold WS.handle_request.
    rewrite (dict_get_found _ _ _ _ Hm), Hp, (dict_get_found _ _ _ _ Hi).
    cbn [eq_str String.eqb Ascii.eqb Bool.eqb].
    unfold WS.call_tool. cbn [py_get bind].
    rewrite (dict_get_missing _ _ _ Hn), Ha. reflexivity.
Qed.

End Tools.

(** ** The catalog and the dispatch by tool name *)

Section Registry.
Context `{Host}.
Variable py : PS.MCPTestServer.
Variable ws : WS.WebSocketMCPServer.
Variable now : datetime.

Lemma stdio_tool_names :
  Contract.tool_names (PS.tools PS.__init__) = ["echo"; "add"; "get_time"].
Proof. reflexivity. Qed.

Lemma socket_tool_names :
  Contract.tool_names WS.tool_catalog = ["websocket_search"; "websocket_time"].
Proof. reflexivity. Qed.

(** Opens every [bind] of a reply and tells the replies apart. *)
Ltac tell_apart :=
  repeat match goal with
         | |- context [bind ?m _] => destruct m; cbn [bind try_except]
         | Hid : lookup "id" _ = Some _ |- context [getitem _ "id"] =>
             rewrite (getitem_found _ _ _ Hid); cbn [bind try_except]
         end;
  discriminate.

(** X10: on python-server the catalog of [tools/list] and the dispatch of
    [tools/call] agree.  The advertised names are pairwise distinct, and a
    call carrying an id that names a tool by a string is answered
    [Unknown tool: {name}] exactly when the name is not advertised. *)
Theorem stdio_catalog_matches_dispatch (d p : dict) (name : string) (i : json) :
  lookup "method" d = Some (JStr "tools/call") ->
  lookup "params" d = Some (JDict p) ->
  lookup "name" p = Some (JStr name) ->
  lookup "id" d = Some i ->
  NoDup (Contract.tool_names (PS.tools PS.__init__))
  /\ (In name (Contract.tool_names (PS.tools PS.__init__))
      <-> PS.handle_request py now (JDict d)
          <> Return (PS.error_response i (-32601) ("Unknown tool: " ++ name))).
Proof.
  intros Hm Hp Hn Hi. rewrite stdio_tool_names. split.
  { repeat constructor; cbn; intuition discriminate. }
  rewrite (stdio_call_body py now d p (JStr name)
             (dict_get p "arguments" (JDict [])) Hm Hp
             (dict_get_found _ _ _ _ Hn) eq_refl).
  unfold PS.call_tool_body. split.
  - intros [<- | [<- | [<- | []]]];
      cbn [eq_str String.eqb Ascii.eqb Bool.eqb]; tell_apart.
  - intros Hknown.
    destruct (string_dec name "echo") as [->|He]; [now left|].
    destruct (string_dec name "add") as [->|Ha]; [now right; left|].
    destruct (string_dec name "get_time") as [->|Hg];
      [now right; right; left|].
    exfalso. apply Hknown. settle_names.
    now rewrite (getitem_found _ _ _ Hi).
Qed.

(** X11: on the websocket server the catalog of [tools/list] and the
    dispatch of [tools/call] agree.  The advertised names are pairwise
    distinct, and a call whose [arguments] is absent or an object and that
    names a tool by a string is answered
    [Method not found: Unknown tool '{name}'] exactly when the name is not
    advertised. *)
Theorem socket_catalog_matches_dispatch (d p args : dict) (name : string) :
  lookup "method" d = Some (JStr "tools/call") ->
  lookup "params" d = Some (JDict p) ->
  lookup "name" p = Some (JStr name) ->
  dict_get p "arguments" (JDict []) = JDict args ->
  NoDup (Contract.tool_names WS.tool_catalog)
  /\ (In name (Contract.tool_names WS.tool_catalog)
      <-> WS.handle_request ws now (JDict d)
          <> Return (WS.error_response (dict_get d "id" JNone) (-32601)
                       ("Method not found: Unknown tool " ++ quote ++ name
                          ++ quote))).
Proof.
  intros Hm Hp Hn Ha. rewrite socket_tool_names. split.
  { repeat constructor; cbn; intuition discriminate. }
  rewrite (socket_call_body ws now d p args (JStr name) Hm Hp
             (dict_get_found _ _ _ _ Hn) Ha).
  unfold WS.call_tool. cbn [py_get bind].
  rewrite (dict_get_found _ _ _ _ Hn), Ha. cbn [is_dict negb py_get bind].
  split.
  - intros [<- | [<- | []]]; cbn [eq_str String.eqb Ascii.eqb Bool.eqb].
    + destruct (negb (truthy _)); discriminate.
    + discriminate.
  - intros Hknown.
    destruct (string_dec name "websocket_search") as [->|Hs]; [now left|].
    destruct (string_dec name "websocket_time") as [->|Ht];
      [now right; left|].
    exfalso. apply Hknown. now settle_names.
Qed.

End Registry.

(** ** The sessions as a whole *)

Lemma snoc_changes {A : Type} (l : list A) (x : A) : (l ++ [x])%list <> l.
Proof.
  intros E. apply (f_equal (@length A)) in E.
  rewrite length_app in E. cbn in E.
  rewrite Nat.add_comm in E. cbn in E.
  exact (n_Sn _ (eq_sym E)).
Qed.

Lemma envelope_truthy (codes : list Z) (id r : json) :
  Contract.envelope codes id r -> truthy r = true.
Proof. now intros []. Qed.

Lemma envelope_codes (codes more : list Z) (id r : json) :
  incl codes more ->
  Contract.envelope codes id r -> Contract.envelope more id r.
Proof.
  intros Hincl [payload | code message Hin]; constructor. now apply Hincl.
Qed.

Section Loops.
Context `{Host}.

(** Once the loop of [run_stdio] is left, the rest of the input is not
    read. *)
Lemma stdio_stopped_stays (stdin : list PS.arrival) :
  forall s : PS.session,
    PS.running s = false -> fold_left PS.step stdin s = s.
Proof.
  induction stdin as [|a stdin IH]; intros s Hs; [reflexivity|].
  cbn [fold_left]. unfold PS.step at 2. rewrite Hs. now apply IH.
Qed.

(** X12: an empty [readline] result is the end of input for python-server,
    wherever it comes: nothing is written for it and whatever follows is
    never read, so the run is the run on the lines before it. *)
Theorem stdio_end_of_input (self : PS.MCPTestServer)
        (before after : list PS.arrival) (t : datetime) :
  PS.run_stdio self
    (before ++ {| PS.line := EmptyString; PS.clock := t |} :: after)
  = PS.run_stdio self before.
Proof.
  unfold PS.run_stdio. rewrite fold_left_app. cbn [fold_left].
  set (s := fold_left PS.step before _).
  assert (Hstep : PS.step s {| PS.line := EmptyString; PS.clock := t |}
                  = PS.stop s).
  { unfold PS.step, PS.iteration. cbn [PS.line is_empty].
    destruct s as [server [|] written]; reflexivity. }
  rewrite Hstep, (stdio_stopped_stays after (PS.stop s) eq_refl).
  reflexivity.
Qed.

(** X13: an exception of python-server's dispatcher ends the session.  The
    only trace is one [Server error: ...] line on standard error; nothing
    goes to standard output for that request, and no later line is
    answered, well formed or not. *)
Theorem stdio_exception_ends_session (s : PS.session) (a : PS.arrival)
        (request : json) (e : exn) (rest : list PS.arrival) :
  PS.running s = true ->
  is_empty (strip (PS.line a)) = false ->
  loads (strip (PS.line a)) = Return request ->
  PS.handle_request (PS.server s) (PS.clock a) request = Raise e ->
  fold_left PS.step (a :: rest) s
  = PS.stop (PS.emit s (PS.Stderr ("Server error: " ++ str_exn e))).
Proof.
  intros Hrun Hline Hload Hraise. cbn [fold_left].
  assert (Hstep : PS.step s a
                  = PS.stop (PS.emit s (PS.Stderr
                                          ("Server error: " ++ str_exn e)))).
  { unfold PS.step, PS.iteration.
    now rewrite Hrun, (strip_keeps_empty _ Hline), Hline, Hload, Hraise. }
  rewrite Hstep. now apply stdio_stopped_stays.
Qed.

(** X14: a unit that is valid JSON but not an object (a number, a string,
    a list, [null], [true]) is fatal to python-server and harmless to the
    websocket server.  [request.get] raises AttributeError in both;
    python-server reports it on standard error and stops reading, the
    websocket server answers -32603 with a null id and goes on. *)
Theorem request_not_an_object (v : json) :
  is_dict v = false ->
  (forall (s : PS.session) (a : PS.arrival) (rest : list PS.arrival),
      PS.running s = true ->
      is_empty (strip (PS.line a)) = false ->
      loads (strip (PS.line a)) = Return v ->
      fold_left PS.step (a :: rest) s
      = PS.stop (PS.emit s (PS.Stderr
                              ("Server error: " ++ quote ++ type_name v
                                 ++ quote ++ " object has no attribute "
                                 ++ quote ++ "get" ++ quote))))
  /\ (forall (s : WS.session) (a : WS.arrival) (text : string)
             (rest : list WS.arrival),
        WS.frame a = WS.TextFrame text ->
        loads text = Return v ->
        fold_left WS.step (a :: rest) s
        = fold_left WS.step rest
            (WS.send s (WS.error_response JNone (-32603)
                          ("Internal error: " ++ quote ++ type_name v
                             ++ quote ++ " object has no attribute "
                             ++ quote ++ "get" ++ quote)))).
Proof.
  intros Hv. split.
  - intros s a rest Hrun Hline Hload. cbn [fold_left].
    assert (Hstep : PS.step s a
                    = PS.stop (PS.emit s
                                 (PS.Stderr
                                    ("Server error: "
                                       ++ str_exn (no_attribute v "get"))))).
    { unfold PS.step, PS.iteration.
      rewrite Hrun, (strip_keeps_empty _ Hline), Hline, Hload.
      destruct v; try discriminate; reflexivity. }
    rewrite Hstep. now apply stdio_stopped_stays.
  - intros s a text rest Hframe Hload. cbn [fold_left]. f_equal.
    unfold WS.step. rewrite Hframe, Hload. cbn [bind].
    destruct v; try discriminate; reflexivity.
Qed.

(** X15: blank lines are invisible to python-server: the run on an input
    is the run on that input without its lines of whitespace only. *)
Theorem stdio_ignores_blank_lines (self : PS.MCPTestServer)
        (stdin : list PS.arrival) :
  PS.run_stdio self stdin
  = PS.run_stdio self
      (filter (fun a => negb (Contract.is_blank a)) stdin).
Proof.
  unfold PS.run_stdio. do 2 f_equal.
  generalize {| PS.server := self; PS.running := true;
                PS.written :=
                  [PS.Stderr "Python MCP Test Server starting (stdio mode)"] |}.
  induction stdin as [|a stdin IH]; intros s; [reflexivity|].
  cbn [fold_left filter]. unfold Contract.is_blank at 1.
  destruct (is_empty (PS.line a)) eqn:Hline; cbn [negb andb fold_left].
  - apply IH.
  - destruct (is_empty (strip (PS.line a))) eqn:Hstrip;
      cbn [negb fold_left]; [|apply IH].
    rewrite <- IH. f_equal. unfold PS.step, PS.iteration.
    rewrite Hline, Hstrip. now destruct (PS.running s).
Qed.

(** X16: binary frames are invisible to the websocket server: what is sent
    on a connection is what is sent on its text frames alone. *)
Theorem socket_ignores_binary_frames (self : WS.WebSocketMCPServer)
        (frames : list WS.arrival) :
  WS.handle_client self frames
  = WS.handle_client self (filter Contract.is_text frames).
Proof.
  unfold WS.handle_client.
  generalize {| WS.server := self; WS.sent := [] |}.
  induction frames as [|a frames IH]; intros s; [reflexivity|].
  cbn [fold_left filter]. unfold Contract.is_text at 1.
  destruct (WS.frame a) as [text|payload] eqn:Hframe; cbn [fold_left].
  - apply IH.
  - rewrite <- IH. f_equal. unfold WS.step. now rewrite Hframe.
Qed.

Lemma stdout_of_emit (s : PS.session) (e : PS.event) :
  Contract.stdout_of (PS.written (PS.emit s e))
  = (Contract.stdout_of (PS.written s)
       ++ match e with
          | PS.Stdout v => [v]
          | PS.Stderr _ => []
          end)%list.
Proof.
  unfold Contract.stdout_of. cbn [PS.emit PS.written].
  rewrite flat_map_app. cbn [flat_map]. now rewrite app_nil_r.
Qed.

(** What one turn of python-server's loop does to the session: nothing, a
    stop, or one event, after which the loop runs only if it was running
    and the event went to standard output. *)
Lemma stdio_step_cases (s : PS.session) (a : PS.arrival) :
  PS.step s a = s
  \/ PS.step s a = PS.stop s
  \/ (exists v : json,
        PS.step s a = PS.emit s (PS.Stdout v)
        /\ exists id : json,
            Contract.envelope [-32700; -32601; -32603] id v)
  \/ exists text : string, PS.step s a = PS.stop (PS.emit s (PS.Stderr text)).
Proof.
  unfold PS.step, PS.iteration.
  destruct (PS.running s); [|now left].
  destruct (is_empty (PS.line a)); [now right; left|].
  destruct (is_empty (strip (PS.line a))); [now left|].
  destruct (loads (strip (PS.line a))) as [request|e].
  - destruct (PS.handle_request _ _ request) as [response|e] eqn:Hreply.
    + right; right; left. exists response. split; [reflexivity|].
      destruct (stdio_dispatch_envelope _ _ _ _ Hreply) as [d [_ Henv]].
      exists (dict_get d "id" JNone).
      apply (envelope_codes [-32601; -32603]); [|exact Henv].
      intros code [<- | [<- | []]]; cbn; tauto.
    + right; right; right. now eexists.
  - destruct e; try (right; right; right; now eexists).
    right; right; left. eexists. split; [reflexivity|].
    exists JNone. apply Contract.envelope_error. cbn. tauto.
Qed.

(** What one frame does to a websocket session: nothing, or one message,
    which is an envelope. *)
Lemma socket_step_cases (s : WS.session) (a : WS.arrival) :
  WS.step s a = s
  \/ exists v : json,
      WS.step s a = WS.send s v
      /\ exists id : json,
          Contract.envelope [-32700; -32603; -32601; -32602] id v.
Proof.
  unfold WS.step. destruct (WS.frame a) as [text|payload]; [|now left].
  destruct (loads text) as [request|e]; cbn [bind].
  - destruct (WS.handle_request _ _ request) as [response|e] eqn:Hreply.
    + destruct (socket_dispatch_envelope _ _ _ _ Hreply)
        as [d [_ [[-> _] | Henv]]]; [now left|].
      rewrite (envelope_truthy _ _ _ Henv). right. exists response.
      split; [reflexivity|]. exists (dict_get d "id" JNone).
      apply (envelope_codes [-32601; -32602]); [|exact Henv].
      intros code [<- | [<- | []]]; cbn; tauto.
    + right. destruct e; eexists; (split; [reflexivity|]); exists JNone;
        apply Contract.envelope_error; cbn; tauto.
  - right. destruct e; eexists; (split; [reflexivity|]); exists JNone;
      apply Contract.envelope_error; cbn; tauto.
Qed.

(** X17: neither loop rewrites what it has written, and neither writes
    more than one unit per unit read: after any input the output is the
    earlier output followed by at most as many units as were read
    (python-server: lines on either stream; websocket: messages). *)
Theorem output_grows_by_at_most_one_per_unit :
  (forall (stdin : list PS.arrival) (s : PS.session),
      exists tail : list PS.event,
        PS.written (fold_left PS.step stdin s) = (PS.written s ++ tail)%list
        /\ (length tail <= length stdin)%nat)
  /\ (forall (frames : list WS.arrival) (s : WS.session),
        exists tail : list json,
          WS.sent (fold_left WS.step frames s) = (WS.sent s ++ tail)%list
          /\ (length tail <= length frames)%nat).
Proof.
  split.
  - induction stdin as [|a stdin IH]; intros s.
    { exists []. now rewrite app_nil_r. }
    cbn [fold_left]. destruct (IH (PS.step s a)) as [tail [Hout Hlen]].
    rewrite Hout.
    destruct (stdio_step_cases s a)
      as [-> | [-> | [[v [-> _]] | [text ->]]]];
      cbn [PS.written PS.stop PS.emit length].
    + exists tail. split; [reflexivity|]. now apply Nat.le_le_succ_r.
    + exists tail. split; [reflexivity|]. now apply Nat.le_le_succ_r.
    + exists (PS.Stdout v :: tail). rewrite <- app_assoc.
      split; [reflexivity|]. cbn [length]. now apply le_n_S.
    + exists (PS.Stderr text :: tail). rewrite <- app_assoc.
      split; [reflexivity|]. cbn [length]. now apply le_n_S.
  - induction frames as [|a frames IH]; intros s.
    { exists []. now rewrite app_nil_r. }
    cbn [fold_left]. destruct (IH (WS.step s a)) as [tail [Hout Hlen]].
    rewrite Hout.
    destruct (socket_step_cases s a) as [-> | [v [-> _]]];
      cbn [WS.sent WS.send length].
    + exists tail. split; [reflexivity|]. now apply Nat.le_le_succ_r.
    + exists (v :: tail). rewrite <- app_assoc.
      split; [reflexivity|]. cbn [length]. now apply le_n_S.
Qed.

(** X18: everything the servers put on the wire is a JSON-RPC envelope.
    Each value python-server prints on standard output, and each message
    the websocket server sends, has [jsonrpc] 2.0, an id, and either a
    result or an error; the error codes are -32700, -32601, -32603 on
    python-server and -32700, -32603, -32601, -32602 on the websocket
    server, and no other. *)
Theorem wire_carries_envelopes_only :
  (forall (self : PS.MCPTestServer) (stdin : list PS.arrival),
      Forall (fun v => exists id : json,
                  Contract.envelope [-32700; -32601; -32603] id v)
             (Contract.stdout_of (PS.written (PS.run_stdio self stdin))))
  /\ (forall (self : WS.WebSocketMCPServer) (frames : list WS.arrival),
        Forall (fun v => exists id : json,
                    Contract.envelope [-32700; -32603; -32601; -32602] id v)
               (WS.sent (WS.handle_client self frames))).
Proof.
  split.
  - intros self stdin. unfold PS.run_stdio.
    cbn [PS.written PS.stop]. rewrite stdout_of_emit, app_nil_r.
    assert (Hstart : Forall (fun v => exists id : json,
                                 Contract.envelope [-32700; -32601; -32603] id v)
                            (Contract.stdout_of
                               [PS.Stderr "Python MCP Test Server starting (stdio mode)"]))
      by constructor.
    revert Hstart.
    change [PS.Stderr "Python MCP Test Server starting (stdio mode)"]
      with (PS.written
              {| PS.server := self; PS.running := true;
                 PS.written :=
                   [PS.Stderr "Python MCP Test Server starting (stdio mode)"] |})
      at 1.
    generalize {| PS.server := self; PS.running := true;
                  PS.written :=
                    [PS.Stderr "Python MCP Test Server starting (stdio mode)"] |}.
    induction stdin as [|a stdin IH]; intros s Hs; [exact Hs|].
    cbn [fold_left]. apply IH.
    destruct (stdio_step_cases s a)
      as [-> | [-> | [[v [-> Henv]] | [text ->]]]];
      cbn [PS.written PS.stop]; try exact Hs.
    + rewrite stdout_of_emit. apply Forall_app. split; [exact Hs|].
      now constructor.
    + rewrite stdout_of_emit. now rewrite app_nil_r.
  - intros self frames. unfold WS.handle_client.
    assert (Hstart : Forall (fun v => exists id : json,
                                 Contract.envelope
                                   [-32700; -32603; -32601; -32602] id v)
                            (WS.sent {| WS.server := self; WS.sent := [] |}))
      by constructor.
    revert Hstart. generalize {| WS.server := self; WS.sent := [] |}.
    induction frames as [|a frames IH]; intros s Hs; [exact Hs|].
    cbn [fold_left]. apply IH.
    destruct (socket_step_cases s a) as [-> | [v [-> Henv]]]; [exact Hs|].
    cbn [WS.sent WS.send]. apply Forall_app. split; [exact Hs|].
    now constructor.
Qed.

(** X19: as long as every line is answerable (blank, refused by
    [json.loads] as malformed, or an object that reaches no handler or has
    an id and usable [params]), python-server keeps running and prints
    exactly one value on standard output per line that is not blank. *)
Theorem stdio_answers_every_line (stdin : list PS.arrival) :
  Forall Contract.answerable stdin ->
  forall s : PS.session,
    PS.running s = true ->
    PS.running (fold_left PS.step stdin s) = true
    /\ length (Contract.stdout_of (PS.written (fold_left PS.step stdin s)))
       = (length (Contract.stdout_of (PS.written s))
          + length (filter (fun a => negb (Contract.is_blank a)) stdin))%nat.
Proof.
  induction 1 as [|a stdin [Hline Hcases] _ IH]; intros s Hrun.
  { cbn. now rewrite Nat.add_0_r. }
  cbn [fold_left filter]. unfold Contract.is_blank at 1. rewrite Hline.
  cbn [negb andb].
  destruct (is_empty (strip (PS.line a))) eqn:Hstrip; cbn [negb].
  - assert (Hstep : PS.step s a = s).
    { unfold PS.step, PS.iteration. now rewrite Hrun, Hline, Hstrip. }
    rewrite Hstep. now apply IH.
  - assert (Hstep : exists v : json, PS.step s a = PS.emit s (PS.Stdout v)).
    { destruct Hcases as [Hblank | [[msg Hload] | [d [Hload Hsafe]]]].
      - congruence.
      - eexists. exact (stdio_parse_error s a msg Hrun Hstrip Hload).
      - destruct (stdio_dispatch_returns (PS.server s) (PS.clock a) d Hsafe)
          as [r Hr].
        exists r. exact (stdio_answers s a (JDict d) r Hrun Hstrip Hload Hr). }
    destruct Hstep as [v ->].
    destruct (IH (PS.emit s (PS.Stdout v)) Hrun) as [Hstill Hcount].
    split; [exact Hstill|]. rewrite Hcount, stdout_of_emit, length_app.
    cbn [length]. now rewrite <- Nat.add_assoc.
Qed.

(** X20: the websocket server is silent on a text frame exactly when the
    frame loads as an object whose method is [notifications/initialized];
    on every other text frame, malformed or not, it sends exactly one
    message. *)
Theorem socket_silent_exactly_on_initialized (s : WS.session) (a : WS.arrival)
        (text : string) :
  WS.frame a = WS.TextFrame text ->
  (WS.step s a = s
   <-> exists d : dict,
       loads text = Return (JDict d)
       /\ dict_get d "method" JNone = JStr "notifications/initialized")
  /\ (WS.step s a = s \/ exists v : json, WS.step s a = WS.send s v).
Proof.
  intros Hframe.
  assert (Hsend : forall v : json, WS.send s v <> s).
  { intros v E. apply (f_equal WS.sent) in E. cbn [WS.send WS.sent] in E.
    exact (snoc_changes _ _ E). }
  split.
  - unfold WS.step. rewrite Hframe. split.
    + destruct (loads text) as [request|e]; cbn [bind].
      * destruct (WS.handle_request _ _ request) as [response|e] eqn:Hreply.
        -- destruct (socket_dispatch_envelope _ _ _ _ Hreply)
             as [d [-> [[-> Hnote] | Henv]]].
           ++ intros _. now exists d.
           ++ rewrite (envelope_truthy _ _ _ Henv). intros E.
              now destruct (Hsend _ E).
        -- destruct e; intros E; now destruct (Hsend _ E).
      * destruct e; intros E; now destruct (Hsend _ E).
    + intros [d [-> Hnote]]. cbn [bind]. unfold WS.handle_request.
      now rewrite Hnote.
  - destruct (socket_step_cases s a) as [-> | [v [-> _]]];
      [now left | right; now exists v].
Qed.

End Loops.

(** ** The further properties on concrete requests *)

Lemma stdio_reply_envelope_witness :
  PS.handle_request (H := host) PS.__init__ noon
    (JDict (call 3 "missing_tool" (JDict [])))
  = Return (PS.error_response (JInt 3) (-32601) "Unknown tool: missing_tool")
  /\ Contract.envelope [-32601; -32603] (JInt 3)
       (PS.error_response (JInt 3) (-32601) "Unknown tool: missing_tool").
Proof.
  split; [reflexivity|].
  exact (stdio_reply_envelope (H := host) PS.__init__ noon
           (call 3 "missing_tool" (JDict [])) _ eq_refl).
Defined.

Lemma socket_reply_envelope_witness :
  WS.handle_request (H := host) WS.__init__ noon (JDict list_request)
  = Return (WS.result_response (JInt 1) (JDict [("tools", WS.tool_catalog)]))
  /\ (WS.result_response (JInt 1) (JDict [("tools", WS.tool_catalog)]) = JNone
      \/ Contract.envelope [-32601; -32602] (JInt 1)
           (WS.result_response (JInt 1) (JDict [("tools", WS.tool_catalog)]))).
Proof.
  split; [reflexivity|].
  exact (socket_reply_envelope (H := host) WS.__init__ noon list_request _
           eq_refl).
Defined.

Lemma stdio_call_never_raises_witness :
  lookup "id" (call 4 "echo" (JList [JInt 1])) = Some (JInt 4)
  /\ Contract.params_usable (call 4 "echo" (JList [JInt 1])) = true
  /\ exists r : json,
      PS.handle_request (H := host) PS.__init__ noon
        (JDict (call 4 "echo" (JList [JInt 1]))) = Return r.
Proof.
  split; [reflexivity|]. split; [reflexivity|].
  exact (stdio_call_never_raises (H := host) PS.__init__ noon
           (call 4 "echo" (JList [JInt 1])) (JInt 4) eq_refl eq_refl).
Defined.

Lemma stdio_dispatch_raises_witness :
  Contract.params_usable bad_params = false
  /\ PS.handle_request (H := host) PS.__init__ noon (JDict bad_params)
     = Raise (no_attribute (JList []) "get")
  /\ Contract.routed initialize_notification = true
  /\ lookup "id" initialize_notification = None
  /\ PS.handle_request (H := host) PS.__init__ noon
       (JDict initialize_notification)
     = Raise (KeyError "id").
Proof.
  split; [reflexivity|]. split.
  - apply (stdio_dispatch_raises (H := host) PS.__init__ noon bad_params);
      reflexivity.
  - split; [reflexivity|]. split; [reflexivity|].
    apply (stdio_dispatch_raises (H := host) PS.__init__ noon
             initialize_notification); [reflexivity | reflexivity |].
    discriminate.
Defined.

Lemma socket_dispatch_raises_witness :
  Contract.params_usable bad_params = false
  /\ exists e : exn,
      WS.handle_request (H := host) WS.__init__ noon (JDict bad_params)
      = Raise e.
Proof.
  split; [reflexivity|].
  apply (socket_dispatch_raises (H := host) WS.__init__ noon bad_params).
  split; reflexivity.
Defined.

Lemma echo_renders_any_text_witness :
  lookup "text" [("text", JInt 5)] = Some (JInt 5)
  /\ PS.handle_request (H := host) PS.__init__ noon
       (JDict (call 1 "echo" (JDict [("text", JInt 5)])))
     = Return (PS.result_response (JInt 1)
                 (JDict [("content", PS.text_content "Echo: 5")])).
Proof.
  split; [reflexivity|].
  exact (echo_renders_any_text (H := host) PS.__init__ noon
           (call 1 "echo" (JDict [("text", JInt 5)]))
           [("name", JStr "echo"); ("arguments", JDict [("text", JInt 5)])]
           [("text", JInt 5)] (JInt 1) eq_refl eq_refl eq_refl eq_refl eq_refl).
Defined.

Lemma add_beyond_numbers_witness :
  PS.handle_request (H := host) PS.__init__ noon
    (JDict (call 2 "add" (JDict [("a", JStr "foo"); ("b", JStr "bar")])))
  = Return (PS.result_response (JInt 2)
              (JDict [("content", PS.text_content "Result: foobar")]))
  /\ is_number (dict_get [("a", JStr "foo")] "b" (JInt 0)) = true
  /\ PS.handle_request (H := host) PS.__init__ noon
       (JDict (call 2 "add" (JDict [("a", JStr "foo")])))
     = Return (PS.error_response (JInt 2) (-32603)
                 ("Tool execution error: can only concatenate str (not "
                    ++ dquote ++ "int" ++ dquote ++ ") to str")).
Proof.
  split.
  - apply (add_beyond_numbers (H := host) PS.__init__ noon
             (call 2 "add" (JDict [("a", JStr "foo"); ("b", JStr "bar")]))
             [("name", JStr "add");
              ("arguments", JDict [("a", JStr "foo"); ("b", JStr "bar")])]
             [("a", JStr "foo"); ("b", JStr "bar")] (JInt 2) "foo"
             eq_refl eq_refl eq_refl eq_refl eq_refl eq_refl).
    reflexivity.
  - split; [reflexivity|].
    apply (add_beyond_numbers (H := host) PS.__init__ noon
             (call 2 "add" (JDict [("a", JStr "foo")]))
             [("name", JStr "add"); ("arguments", JDict [("a", JStr "foo")])]
             [("a", JStr "foo")] (JInt 2) "foo"
             eq_refl eq_refl eq_refl eq_refl eq_refl eq_refl).
    reflexivity.
Defined.

Lemma search_judges_query_by_truth_witness :
  truthy (JInt 0) = false
  /\ WS.handle_request (H := host) WS.__init__ noon
       (JDict (call 5 "websocket_search" (JDict [("query", JInt 0)])))
     = Return (WS.error_response (JInt 5) (-32602)
                 ("Invalid parameters: " ++ quote ++ "query" ++ quote
                    ++ " is required for websocket_search"))
  /\ truthy (JInt 7) = true
  /\ WS.handle_request (H := host) WS.__init__ noon
       (JDict (call 5 "websocket_search" (JDict [("query", JInt 7)])))
     = Return (WS.result_response (JInt 5)
                 (JDict [("content",
                          JList [JDict [("type", JStr "text");
                                        ("text", JStr (WS.search_text "7"))]])])).
Proof.
  split; [reflexivity|]. split.
  - exact (search_judges_query_by_truth (H := host) WS.__init__ noon
             (call 5 "websocket_search" (JDict [("query", JInt 0)]))
             [("name", JStr "websocket_search");
              ("arguments", JDict [("query", JInt 0)])]
             [("query", JInt 0)] eq_refl eq_refl eq_refl eq_refl).
  - split; [reflexivity|].
    exact (search_judges_query_by_truth (H := host) WS.__init__ noon
             (call 5 "websocket_search" (JDict [("query", JInt 7)]))
             [("name", JStr "websocket_search");
              ("arguments", JDict [("query", JInt 7)])]
             [("query", JInt 7)] eq_refl eq_refl eq_refl eq_refl).
Defined.

Lemma call_without_name_witness :
  lookup "params" (plain 9 "tools/call") = None
  /\ PS.handle_request (H := host) PS.__init__ noon
       (JDict (plain 9 "tools/call"))
     = Return (PS.error_response (JInt 9) (-32601) "Unknown tool: None")
  /\ WS.handle_request (H := host) WS.__init__ noon
       (JDict (plain 9 "tools/call"))
     = Return (WS.error_response (JInt 9) (-32601)
                 ("Method not found: Unknown tool " ++ quote ++ "None"
                    ++ quote)).
Proof.
  destruct (call_without_name (H := host) PS.__init__ WS.__init__ noon
              (plain 9 "tools/call") [] (JInt 9)
              eq_refl eq_refl eq_refl eq_refl) as [Hstdio Hsocket].
  split; [reflexivity|]. split; [exact Hstdio|].
  apply Hsocket. reflexivity.
Defined.

Lemma stdio_catalog_matches_dispatch_witness :
  In "add" (Contract.tool_names (PS.tools PS.__init__))
  /\ PS.handle_request (H := host) PS.__init__ noon
       (JDict (call 2 "add" (JDict [])))
     <> Return (PS.error_response (JInt 2) (-32601) "Unknown tool: add")
  /\ ~ In "sub" (Contract.tool_names (PS.tools PS.__init__)).
Proof.
  destruct (stdio_catalog_matches_dispatch (H := host) PS.__init__ noon
              (call 2 "add" (JDict []))
              [("name", JStr "add"); ("arguments", JDict [])] "add" (JInt 2)
              eq_refl eq_refl eq_refl eq_refl) as [_ Hadd].
  destruct (stdio_catalog_matches_dispatch (H := host) PS.__init__ noon
              (call 2 "sub" (JDict []))
              [("name", JStr "sub"); ("arguments", JDict [])] "sub" (JInt 2)
              eq_refl eq_refl eq_refl eq_refl) as [_ Hsub].
  split; [right; left; reflexivity|]. split.
  - apply Hadd. right; left; reflexivity.
  - intros Hin. now apply (proj1 Hsub Hin).
Defined.

Lemma socket_catalog_matches_dispatch_witness :
  In "websocket_time" (Contract.tool_names WS.tool_catalog)
  /\ WS.handle_request (H := host) WS.__init__ noon
       (JDict (call 2 "websocket_time" (JDict [])))
     <> Return (WS.error_response (JInt 2) (-32601)
                  ("Method not found: Unknown tool " ++ quote
                     ++ "websocket_time" ++ quote)).
Proof.
  destruct (socket_catalog_matches_dispatch (H := host) WS.__init__ noon
              (call 2 "websocket_time" (JDict []))
              [("name", JStr "websocket_time"); ("arguments", JDict [])] []
              "websocket_time" eq_refl eq_refl eq_refl eq_refl) as [_ Htime].
  split; [right; left; reflexivity|].
  apply Htime. right; left; reflexivity.
Defined.

Lemma stdio_exception_ends_session_witness :
  PS.handle_request (H := host) PS.__init__ noon (JDict initialize_notification)
  = Raise (KeyError "id")
  /\ fold_left (PS.step (H := host))
       [stdin_line initialize_notification_text; stdin_line list_text]
       stdio_start
     = PS.stop (PS.emit stdio_start
                  (PS.Stderr ("Server error: " ++ quote ++ "id" ++ quote))).
Proof.
  split; [reflexivity|].
  apply (stdio_exception_ends_session (H := host) stdio_start
           (stdin_line initialize_notification_text)
           (JDict initialize_notification) (KeyError "id")
           [stdin_line list_text]); vm_compute; reflexivity.
Defined.

Lemma request_not_an_object_witness :
  is_dict (JInt 1) = false
  /\ fold_left (PS.step (H := host)) [stdin_line "1"; stdin_line list_text]
       stdio_start
     = PS.stop (PS.emit stdio_start
                  (PS.Stderr ("Server error: " ++ quote ++ "int" ++ quote
                                ++ " object has no attribute " ++ quote
                                ++ "get" ++ quote)))
  /\ fold_left (WS.step (H := host)) [text_frame "1"; text_frame list_text]
       socket_start
     = fold_left (WS.step (H := host)) [text_frame list_text]
         (WS.send socket_start
            (WS.error_response JNone (-32603)
               ("Internal error: " ++ quote ++ "int" ++ quote
                  ++ " object has no attribute " ++ quote ++ "get"
                  ++ quote))).
Proof.
  destruct (request_not_an_object (H := host) (JInt 1) eq_refl)
    as [Hstdio Hsocket].
  split; [reflexivity|]. split.
  - apply (Hstdio stdio_start (stdin_line "1") [stdin_line list_text]);
      vm_compute; reflexivity.
  - apply (Hsocket socket_start (text_frame "1") "1" [text_frame list_text]);
      vm_compute; reflexivity.
Defined.

Lemma stdio_answers_every_line_witness :
  PS.running
    (fold_left (PS.step (H := host))
       [stdin_line "not valid json"; stdin_line EmptyString;
        stdin_line list_text; stdin_line "{}"] stdio_start) = true
  /\ length
       (Contract.stdout_of
          (PS.written
             (fold_left (PS.step (H := host))
                [stdin_line "not valid json"; stdin_line EmptyString;
                 stdin_line list_text; stdin_line "{}"] stdio_start)))
     = 3%nat.
Proof.
  apply (stdio_answers_every_line (H := host)
           [stdin_line "not valid json"; stdin_line EmptyString;
            stdin_line list_text; stdin_line "{}"]); [|reflexivity].
  repeat apply Forall_cons; [| | | |apply Forall_nil];
    (split; [reflexivity|]).
  - right; left. exists expecting_value. vm_compute. reflexivity.
  - left. reflexivity.
  - right; right. exists list_request. split; [vm_compute; reflexivity|].
    right. split; [discriminate | reflexivity].
  - right; right. exists []. split; [vm_compute; reflexivity|].
    left. reflexivity.
Defined.

Lemma socket_silent_exactly_on_initialized_witness :
  WS.step (H := host) socket_start (text_frame initialized_text) = socket_start
  /\ exists v : json,
      WS.step (H := host) socket_start (text_frame "not valid json")
      = WS.send socket_start v.
Proof.
  split.
  - apply (socket_silent_exactly_on_initialized (H := host) socket_start
             (text_frame initialized_text) initialized_text eq_refl).
    exists initialized. split; vm_compute; reflexivity.
  - destruct (socket_silent_exactly_on_initialized (H := host) socket_start
                (text_frame "not valid json") "not valid json" eq_refl)
      as [_ [Hsilent | Hsent]]; [|exact Hsent].
    vm_compute in Hsilent. discriminate Hsilent.
Defined.
